(** * libchamplain map view: tile reconciliation, anchor and go-to animation

    A shallow embedding of [champlain/champlain-view.c] and
    [champlain/zoomlevel.c].

    Conventions of the embedding.
    - C [gint]/[guint] values are [Z]; the one [guint] subtraction that can
      wrap is written with [guint], and the integer division of the source
      ([G_MAXINT16 / 2]) with [Z.quot].
    - C [gdouble]/[gfloat] values are exact rationals [Q], kept in lowest
      terms ([Qred]) so that computed states can be compared syntactically.
      A conversion to [gint] truncates toward zero ([gint_of_gdouble]).
    - A [NULL] pointer is [None]; dereferencing it is the failure
      [NullDereference] of the error monad [M].
    - Everything the view does to its host (property notifications, signals,
      actors added to or removed from a group, tile requests, timelines) is
      recorded in the [log] field of the view, most recent event first.
    - The view is single threaded: a callback is a function from view to
      view. *)

From Stdlib Require Import ZArith QArith Qround Qminmax Bool List Lia.
From stdpp Require Import base option list.
Import ListNotations.

Open Scope Z_scope.

(** ** Numbers *)

Definition G_MAXINT16 : Z := 32767.

Definition gdouble := Q.
Bind Scope Q_scope with gdouble.

Definition gd_of_int (z : Z) : gdouble := inject_Z z.
Definition gd_add (a b : gdouble) : gdouble := Qred (a + b).
Definition gd_sub (a b : gdouble) : gdouble := Qred (a - b).
Definition gd_mul (a b : gdouble) : gdouble := Qred (a * b).
Definition gd_div (a b : gdouble) : gdouble := Qred (a / b).

Definition gd_eqb (a b : gdouble) : bool := Qeq_bool a b.
Definition gd_leb (a b : gdouble) : bool := Qle_bool a b.
Definition gd_ltb (a b : gdouble) : bool := negb (Qle_bool b a).

(** C conversion of a floating value to [gint]: the fraction is dropped. *)
Definition gint_of_gdouble (q : gdouble) : Z := Z.quot (Qnum q) (Zpos (Qden q)).

(** C [ceil]. *)
Definition ceil (q : gdouble) : Z := Qceiling q.

(** The nearest integer to [num / den], a tie going to the even one; [den]
    is positive and [num] is not negative. *)
Definition round_half_even (num den : Z) : Z :=
  let fl := num / den in
  match 2 * (num mod den) ?= den with
  | Lt => fl
  | Gt => fl + 1
  | Eq => if Z.even fl then fl else fl + 1
  end.

(** The C cast [(float)]: the value is rounded to the nearest [gfloat], a
    number with 24 significant bits whose last bit weighs at least 2^-149, a
    tie going to the even significand.  A [gfloat] is kept as the rational
    it stands for.  Beyond the largest [gfloat] the cast is undefined in C;
    here the exponent has no upper bound. *)
Definition gfloat_of_gdouble (q : gdouble) : gdouble :=
  let n := Z.abs (Qnum q) in
  let d := Zpos (Qden q) in
  if n =? 0 then 0%Q
  else
    let e0 := Z.log2 n - Z.log2 d in
    let reached := if 0 <=? e0 then d * 2 ^ e0 <=? n else d <=? n * 2 ^ (- e0) in
    let e := if reached then e0 else e0 - 1 in
    let k := Z.max (e - 23) (-149) in
    let m := if 0 <=? k then round_half_even n (d * 2 ^ k)
             else round_half_even (n * 2 ^ (- k)) d in
    let a := if 0 <=? k then inject_Z (m * 2 ^ k)
             else Qred (inject_Z m / inject_Z (2 ^ (- k))) in
    if Qnum q <? 0 then Qopp a else a.

(** The division of two [gfloat]: the quotient, rounded. *)
Definition gf_div (a b : gdouble) : gdouble := gfloat_of_gdouble (a / b).

(** ** The error monad *)

Inductive failure : Type :=
| NullDereference
| OutOfFuel.

Definition M (A : Type) : Type := failure + A.

#[global] Instance M_ret : MRet M := fun A a => inr a.

#[global] Instance M_bind : MBind M := fun A B k m =>
  match m with
  | inl f => inl f
  | inr a => k a
  end.

Definition crash {A : Type} (f : failure) : M A := inl f.

(** ** Data model *)

(** Modelled from the spec: champlain-defines.h is missing; the three states
    the view names, and the state of a tile whose fetch failed. *)
Inductive ChamplainState : Type :=
| CHAMPLAIN_STATE_INIT
| CHAMPLAIN_STATE_LOADING
| CHAMPLAIN_STATE_DONE
| CHAMPLAIN_STATE_ERROR.

(** The C comparison [==] of two states. *)
Definition ChamplainState_eqb (a b : ChamplainState) : bool :=
  match a, b with
  | CHAMPLAIN_STATE_INIT, CHAMPLAIN_STATE_INIT => true
  | CHAMPLAIN_STATE_LOADING, CHAMPLAIN_STATE_LOADING => true
  | CHAMPLAIN_STATE_DONE, CHAMPLAIN_STATE_DONE => true
  | CHAMPLAIN_STATE_ERROR, CHAMPLAIN_STATE_ERROR => true
  | _, _ => false
  end.

(** Modelled from the spec: champlain-private.h is missing; a point of the
    pixel space has two floating coordinates. *)
Record ChamplainFloatPoint : Type := {
  pt_x : gdouble;
  pt_y : gdouble
}.

(** Modelled from the spec: champlain-private.h is missing; the viewport has
    a floating origin and a floating extent. *)
Record ChamplainRectangle : Type := {
  rect_x : gdouble;
  rect_y : gdouble;
  rect_width : gdouble;
  rect_height : gdouble
}.

(** Modelled from the spec: champlain-tile.c is missing; a tile has a grid
    position, a zoom level, a size, a state and an actor of its own (absent
    when [NULL]), whose position is what [clutter_actor_set_position] last
    wrote. *)
Record ChamplainTile : Type := {
  tile_x : Z;
  tile_y : Z;
  tile_zoom_level : Z;
  tile_size : Z;
  tile_state : ChamplainState;
  tile_actor : option ChamplainFloatPoint
}.

(** zoomlevel.c, [struct ZoomLevel]. *)
Record ZoomLevel : Type := {
  level : Z;
  row_count : Z;
  column_count : Z;
  level_tile_size : Z;
  tiles : list ChamplainTile;
  level_anchor : ChamplainFloatPoint
}.

(** zoomlevel.c, [zoom_level_new]. *)
Definition zoom_level_new (zoom_level row column size : Z) : ZoomLevel :=
  {| level := zoom_level;
     row_count := row;
     column_count := column;
     level_tile_size := size;
     tiles := [];
     level_anchor := {| pt_x := 0%Q; pt_y := 0%Q |} |}.

(** zoomlevel.c, [zoom_level_get_width] and [zoom_level_get_height]: the
    extent of the grid in pixels. *)
Definition zoom_level_get_width (l : ZoomLevel) : Z :=
  column_count l * level_tile_size l.

Definition zoom_level_get_height (l : ZoomLevel) : Z :=
  row_count l * level_tile_size l.

(** ** External collaborators *)

(** The map source is an object with virtual methods; the view only calls
    them.  A source is the record of its methods (the geographic arguments
    are [gdouble], the pixel ones [gint]). *)
Record ChamplainMapSource : Type := {
  champlain_map_source_get_tile_size : Z;
  champlain_map_source_get_min_zoom_level : Z;
  champlain_map_source_get_max_zoom_level : Z;
  champlain_map_source_get_row_count : Z -> Z;
  champlain_map_source_get_column_count : Z -> Z;
  champlain_map_source_get_x : Z -> gdouble -> Z;
  champlain_map_source_get_y : Z -> gdouble -> Z;
  champlain_map_source_get_longitude : Z -> Z -> gdouble;
  champlain_map_source_get_latitude : Z -> Z -> gdouble
}.

(** The properties of the view whose change is notified to the host. *)
Inductive Property : Type :=
| PROP_LONGITUDE
| PROP_LATITUDE
| PROP_ZOOM_LEVEL
| PROP_MAP_SOURCE
| PROP_STATE.

(** What the view asks of its host.  Actors of tiles are named by the grid
    position of their tile, groups of levels by the zoom level. *)
Inductive Event : Type :=
| Notify (p : Property)
| AnimationCompleted
| FillTile (zoom x y : Z)
| GroupAdd (x y : Z)
| GroupRemove (x y : Z)
| MapLayerAdd (zoom : Z)
| MapLayerRemove (zoom : Z)
| SetAdjustments (horizontal : bool) (lower upper : gdouble)
| TimelineStart (timeline : nat) (duration : Z)
| TimelineStop (timeline : nat).

(** [GoToContext]; the timeline is named by a number, the alpha of the
    timeline is delivered with each frame. *)
Record GoToContext : Type := {
  timeline : nat;
  to_latitude : gdouble;
  to_longitude : gdouble;
  from_latitude : gdouble;
  from_longitude : gdouble
}.

(** map.h, [Map]: the view only reads [current_level]. *)
Record Map : Type := {
  current_level : ZoomLevel
}.

(** [struct _ChamplainViewPrivate], without the license, the markers and
    the polygons.  [viewport_origin] is the origin held by the TidyViewport,
    [finger_scroll_position] the transformed position of the finger-scroll
    actor, [timelines] the timelines that were started and not stopped, each
    with the context its new-frame handler was connected with, and
    [next_timeline] the name of the next timeline to be created. *)
Record ChamplainView : Type := {
  map_source : ChamplainMapSource;
  zoom_level : Z;
  min_zoom_level : Z;
  max_zoom_level : Z;
  longitude : gdouble;
  latitude : gdouble;
  anchor : ChamplainFloatPoint;
  anchor_zoom_level : Z;
  map : option Map;
  viewport_origin : ChamplainFloatPoint;
  finger_scroll_position : ChamplainFloatPoint;
  viewport_size : ChamplainRectangle;
  keep_center_on_resize : bool;
  state : ChamplainState;
  goto_context : option GoToContext;
  timelines : list (nat * GoToContext);
  next_timeline : nat;
  log : list Event
}.

(** Field updates. *)
Definition set_zoom_level (z : Z) (v : ChamplainView) : ChamplainView :=
  {| map_source := map_source v; zoom_level := z;
     min_zoom_level := min_zoom_level v; max_zoom_level := max_zoom_level v;
     longitude := longitude v; latitude := latitude v; anchor := anchor v;
     anchor_zoom_level := anchor_zoom_level v; map := map v;
     viewport_origin := viewport_origin v;
     finger_scroll_position := finger_scroll_position v;
     viewport_size := viewport_size v;
     keep_center_on_resize := keep_center_on_resize v; state := state v;
     goto_context := goto_context v; timelines := timelines v;
     next_timeline := next_timeline v; log := log v |}.

Definition set_center (lat lon : gdouble) (v : ChamplainView) : ChamplainView :=
  {| map_source := map_source v; zoom_level := zoom_level v;
     min_zoom_level := min_zoom_level v; max_zoom_level := max_zoom_level v;
     longitude := lon; latitude := lat; anchor := anchor v;
     anchor_zoom_level := anchor_zoom_level v; map := map v;
     viewport_origin := viewport_origin v;
     finger_scroll_position := finger_scroll_position v;
     viewport_size := viewport_size v;
     keep_center_on_resize := keep_center_on_resize v; state := state v;
     goto_context := goto_context v; timelines := timelines v;
     next_timeline := next_timeline v; log := log v |}.

Definition set_anchor (a : ChamplainFloatPoint) (azl : Z) (v : ChamplainView)
  : ChamplainView :=
  {| map_source := map_source v; zoom_level := zoom_level v;
     min_zoom_level := min_zoom_level v; max_zoom_level := max_zoom_level v;
     longitude := longitude v; latitude := latitude v; anchor := a;
     anchor_zoom_level := azl; map := map v;
     viewport_origin := viewport_origin v;
     finger_scroll_position := finger_scroll_position v;
     viewport_size := viewport_size v;
     keep_center_on_resize := keep_center_on_resize v; state := state v;
     goto_context := goto_context v; timelines := timelines v;
     next_timeline := next_timeline v; log := log v |}.

Definition set_map (m : option Map) (v : ChamplainView) : ChamplainView :=
  {| map_source := map_source v; zoom_level := zoom_level v;
     min_zoom_level := min_zoom_level v; max_zoom_level := max_zoom_level v;
     longitude := longitude v; latitude := latitude v; anchor := anchor v;
     anchor_zoom_level := anchor_zoom_level v; map := m;
     viewport_origin := viewport_origin v;
     finger_scroll_position := finger_scroll_position v;
     viewport_size := viewport_size v;
     keep_center_on_resize := keep_center_on_resize v; state := state v;
     goto_context := goto_context v; timelines := timelines v;
     next_timeline := next_timeline v; log := log v |}.

Definition set_viewport_origin (o : ChamplainFloatPoint) (v : ChamplainView)
  : ChamplainView :=
  {| map_source := map_source v; zoom_level := zoom_level v;
     min_zoom_level := min_zoom_level v; max_zoom_level := max_zoom_level v;
     longitude := longitude v; latitude := latitude v; anchor := anchor v;
     anchor_zoom_level := anchor_zoom_level v; map := map v;
     viewport_origin := o;
     finger_scroll_position := finger_scroll_position v;
     viewport_size := viewport_size v;
     keep_center_on_resize := keep_center_on_resize v; state := state v;
     goto_context := goto_context v; timelines := timelines v;
     next_timeline := next_timeline v; log := log v |}.

Definition set_viewport_size (r : ChamplainRectangle) (v : ChamplainView)
  : ChamplainView :=
  {| map_source := map_source v; zoom_level := zoom_level v;
     min_zoom_level := min_zoom_level v; max_zoom_level := max_zoom_level v;
     longitude := longitude v; latitude := latitude v; anchor := anchor v;
     anchor_zoom_level := anchor_zoom_level v; map := map v;
     viewport_origin := viewport_origin v;
     finger_scroll_position := finger_scroll_position v;
     viewport_size := r;
     keep_center_on_resize := keep_center_on_resize v; state := state v;
     goto_context := goto_context v; timelines := timelines v;
     next_timeline := next_timeline v; log := log v |}.

Definition set_state (s : ChamplainState) (v : ChamplainView) : ChamplainView :=
  {| map_source := map_source v; zoom_level := zoom_level v;
     min_zoom_level := min_zoom_level v; max_zoom_level := max_zoom_level v;
     longitude := longitude v; latitude := latitude v; anchor := anchor v;
     anchor_zoom_level := anchor_zoom_level v; map := map v;
     viewport_origin := viewport_origin v;
     finger_scroll_position := finger_scroll_position v;
     viewport_size := viewport_size v;
     keep_center_on_resize := keep_center_on_resize v; state := s;
     goto_context := goto_context v; timelines := timelines v;
     next_timeline := next_timeline v; log := log v |}.

Definition set_goto (c : option GoToContext) (ts : list (nat * GoToContext))
    (next : nat) (v : ChamplainView) : ChamplainView :=
  {| map_source := map_source v; zoom_level := zoom_level v;
     min_zoom_level := min_zoom_level v; max_zoom_level := max_zoom_level v;
     longitude := longitude v; latitude := latitude v; anchor := anchor v;
     anchor_zoom_level := anchor_zoom_level v; map := map v;
     viewport_origin := viewport_origin v;
     finger_scroll_position := finger_scroll_position v;
     viewport_size := viewport_size v;
     keep_center_on_resize := keep_center_on_resize v; state := state v;
     goto_context := c; timelines := ts;
     next_timeline := next; log := log v |}.

Definition emit (es : list Event) (v : ChamplainView) : ChamplainView :=
  {| map_source := map_source v; zoom_level := zoom_level v;
     min_zoom_level := min_zoom_level v; max_zoom_level := max_zoom_level v;
     longitude := longitude v; latitude := latitude v; anchor := anchor v;
     anchor_zoom_level := anchor_zoom_level v; map := map v;
     viewport_origin := viewport_origin v;
     finger_scroll_position := finger_scroll_position v;
     viewport_size := viewport_size v;
     keep_center_on_resize := keep_center_on_resize v; state := state v;
     goto_context := goto_context v; timelines := timelines v;
     next_timeline := next_timeline v; log := es ++ log v |}.

Definition set_tiles (ts : list ChamplainTile) (l : ZoomLevel) : ZoomLevel :=
  {| level := level l; row_count := row_count l;
     column_count := column_count l; level_tile_size := level_tile_size l;
     tiles := ts; level_anchor := level_anchor l |}.


Definition set_tile_actor (a : option ChamplainFloatPoint) (t : ChamplainTile)
  : ChamplainTile :=
  {| tile_x := tile_x t; tile_y := tile_y t;
     tile_zoom_level := tile_zoom_level t; tile_size := tile_size t;
     tile_state := tile_state t; tile_actor := a |}.

(** ** Helpers of the repository that are not part of the two files *)

(** Modelled from the spec: champlain-zoom-level.c is missing; the width and
    height of a level are the numbers of columns and rows that bound its
    tile grid (the view compares them with tile indices), so that
    [champlain_zoom_level_get_width l * tile_size] is the pixel extent that
    zoomlevel.c calls [zoom_level_get_width]. *)
Definition champlain_zoom_level_get_width (l : ZoomLevel) : Z := column_count l.

(** Modelled from the spec: champlain-zoom-level.c is missing; the height of
    a level is the number of rows of its grid. *)
Definition champlain_zoom_level_get_height (l : ZoomLevel) : Z := row_count l.

(** Modelled from the spec: champlain-zoom-level.c is missing; all the tiles
    of a level share its zoom level. *)
Definition champlain_zoom_level_get_zoom_level (l : ZoomLevel) : Z := level l.

(** Modelled from the spec: champlain-zoom-level.c is missing; the tiles of a
    level are an array, and this is its length. *)
Definition champlain_zoom_level_tile_count (l : ZoomLevel) : Z :=
  Z.of_nat (length (tiles l)).

(** Modelled from the spec: champlain-zoom-level.c is missing; the tile at an
    index of the array, nothing when the index is out of range. *)
Definition champlain_zoom_level_get_nth_tile (l : ZoomLevel) (k : nat)
  : option ChamplainTile := tiles l !! k.

(** The comparison of the search loop: the tile is the one of cell
    [(i, j)]. *)
Definition same_cell (i j : Z) (t : ChamplainTile) : bool :=
  (tile_x t =? i) && (tile_y t =? j).

(** Modelled from the spec: champlain-zoom-level.c is missing; a tile is
    appended to the array, and adding a tile for a coordinate that is already
    present does nothing. *)
Definition champlain_zoom_level_add_tile (l : ZoomLevel) (t : ChamplainTile)
  : ZoomLevel :=
  if existsb (same_cell (tile_x t) (tile_y t)) (tiles l) then l
  else set_tiles (tiles l ++ [t]) l.

(** Modelled from the spec: champlain-zoom-level.c is missing; the tile the
    caller read at index [k] leaves the array, the others keep their order. *)
Definition champlain_zoom_level_remove_tile (l : ZoomLevel) (k : nat)
  : ZoomLevel := set_tiles (delete k (tiles l)) l.

(** Modelled from the spec: champlain-tile.c is missing; a tile is created
    empty, in state Init, with an actor of its own. *)
Definition champlain_tile_new : ChamplainTile :=
  {| tile_x := 0; tile_y := 0; tile_zoom_level := 0; tile_size := 0;
     tile_state := CHAMPLAIN_STATE_INIT;
     tile_actor := Some {| pt_x := 0%Q; pt_y := 0%Q |} |}.

(** The [g_object_set] of the properties x, y and zoom-level of a tile. *)
Definition tile_set_position (x y zoom : Z) (t : ChamplainTile) : ChamplainTile :=
  {| tile_x := x; tile_y := y; tile_zoom_level := zoom;
     tile_size := tile_size t; tile_state := tile_state t;
     tile_actor := tile_actor t |}.

(** Modelled from the spec: the tile loader is missing; filling a tile
    switches it to Loading, gives it the tile size of the source and issues
    the fetch (the [FillTile] event); the fetch completes later. *)
Definition champlain_map_source_fill_tile (src : ChamplainMapSource)
    (t : ChamplainTile) : ChamplainTile :=
  {| tile_x := tile_x t; tile_y := tile_y t;
     tile_zoom_level := tile_zoom_level t;
     tile_size := champlain_map_source_get_tile_size src;
     tile_state := CHAMPLAIN_STATE_LOADING; tile_actor := tile_actor t |}.

(** Modelled from the spec: map.c is missing; loading a level replaces the
    current level of the map by an empty grid with the rows and columns the
    source declares for the zoom level ([map_new] followed by
    [map_load_level] when there is no map yet). *)
Definition map_load_level (src : ChamplainMapSource) (zoom : Z) : Map :=
  {| current_level :=
       zoom_level_new zoom
         (champlain_map_source_get_row_count src zoom)
         (champlain_map_source_get_column_count src zoom)
         (champlain_map_source_get_tile_size src) |}.

(** Modelled from the spec: map.c is missing; zooming fails, leaving the map
    as it is, when the source does not support the level. *)
Definition map_zoom_to (m : Map) (src : ChamplainMapSource) (zoom : Z)
  : option Map :=
  if (zoom <? champlain_map_source_get_min_zoom_level src)
     || (champlain_map_source_get_max_zoom_level src <? zoom)
  then None
  else Some (map_load_level src zoom).

(** Modelled from the spec: the viewport widget is missing; setting an origin
    that differs from the current one stores it and notifies the view, whose
    handler [notify] runs before the call returns. *)
Definition tidy_viewport_set_origin
    (notify : ChamplainView -> M ChamplainView)
    (v : ChamplainView) (x y : gdouble) : M ChamplainView :=
  if gd_eqb x (pt_x (viewport_origin v)) && gd_eqb y (pt_y (viewport_origin v))
  then mret v
  else notify (set_viewport_origin {| pt_x := x; pt_y := y |} v).

(** Modelled from the spec: the frame clock is missing; a started timeline
    delivers frames and its completion until it is stopped. *)
Definition clutter_timeline_start (c : GoToContext) (duration : Z)
    (v : ChamplainView) : ChamplainView :=
  emit [TimelineStart (timeline c) duration]
    (set_goto (goto_context v) ((timeline c, c) :: timelines v)
       (next_timeline v) v).

(** Modelled from the spec: the frame clock is missing; a stopped timeline
    delivers nothing. *)
Definition clutter_timeline_stop (t : nat) (v : ChamplainView) : ChamplainView :=
  emit [TimelineStop t]
    (set_goto (goto_context v)
       (List.filter (fun p => negb (Nat.eqb (fst p) t)) (timelines v))
       (next_timeline v) v).

(** ** champlain-view.c *)

(** [viewport_get_longitude_at] and the three functions next to it; the map
    source of a view is never [NULL] between init and dispose. *)
Definition viewport_get_longitude_at (v : ChamplainView) (x : Z) : gdouble :=
  champlain_map_source_get_longitude (map_source v) (zoom_level v) x.

Definition viewport_get_latitude_at (v : ChamplainView) (y : Z) : gdouble :=
  champlain_map_source_get_latitude (map_source v) (zoom_level v) y.

(** The C expression [q / 2.0]. *)
Definition half (q : gdouble) : gdouble := gd_div q 2.

Definition viewport_get_current_longitude (v : ChamplainView) : gdouble :=
  match map v with
  | None => 0%Q
  | Some _ =>
      viewport_get_longitude_at v
        (gint_of_gdouble
           (gd_add (gd_add (pt_x (anchor v)) (rect_x (viewport_size v)))
              (half (rect_width (viewport_size v)))))
  end.

Definition viewport_get_current_latitude (v : ChamplainView) : gdouble :=
  match map v with
  | None => 0%Q
  | Some _ =>
      viewport_get_latitude_at v
        (gint_of_gdouble
           (gd_add (gd_add (pt_y (anchor v)) (rect_y (viewport_size v)))
              (half (rect_height (viewport_size v)))))
  end.

(** [view_position_tile]: the actor of the tile is placed at the raw pixel
    position of the tile minus the anchor. *)
Definition view_position_tile (v : ChamplainView) (t : ChamplainTile)
  : ChamplainTile :=
  match tile_actor t with
  | None => t
  | Some _ =>
      set_tile_actor
        (Some {| pt_x := gd_sub (gd_of_int (tile_x t * tile_size t))
                           (pt_x (anchor v));
                 pt_y := gd_sub (gd_of_int (tile_y t * tile_size t))
                           (pt_y (anchor v)) |}) t
  end.

(** The tiles of the current level are replaced. *)
Definition set_level_tiles (ts : list ChamplainTile) (m : Map) : Map :=
  {| current_level := set_tiles ts (current_level m) |}.

(** [view_tiles_reposition] *)
Definition view_tiles_reposition (v : ChamplainView) : M ChamplainView :=
  match map v with
  | None => crash NullDereference
  | Some m =>
      mret (set_map
              (Some (set_level_tiles
                       (List.map
                          (fun t =>
                             if ChamplainState_eqb (tile_state t)
                                  CHAMPLAIN_STATE_DONE
                             then view_position_tile v t else t)
                          (tiles (current_level m))) m)) v)
  end.

(** [view_update_state] *)
Definition view_update_state (v : ChamplainView) : M ChamplainView :=
  match map v with
  | None => crash NullDereference
  | Some m =>
      let new_state :=
        if existsb
             (fun t => ChamplainState_eqb (tile_state t) CHAMPLAIN_STATE_LOADING)
             (tiles (current_level m))
        then CHAMPLAIN_STATE_LOADING else CHAMPLAIN_STATE_DONE in
      if ChamplainState_eqb (state v) new_state then mret v
      else mret (emit [Notify PROP_STATE] (set_state new_state v))
  end.

(** The range of tiles [view_load_visible_tiles] works with: the first
    column and row, and the column and row that end the range ([x_count] and
    [y_count] after the first index was added and the sum clamped). *)
Record TileRange : Type := {
  x_first : Z;
  y_first : Z;
  x_count : Z;
  y_count : Z
}.

(** The head of [view_load_visible_tiles], up to the two clamps. *)
Definition visible_range (v : ChamplainView) (l : ZoomLevel) : TileRange :=
  let viewport := viewport_size v in
  let vx := gd_add (rect_x viewport) (pt_x (anchor v)) in
  let vy := gd_add (rect_y viewport) (pt_y (anchor v)) in
  let size := gd_of_int (champlain_map_source_get_tile_size (map_source v)) in
  let vx := if gd_ltb vx 0 then 0%Q else vx in
  let vy := if gd_ltb vy 0 then 0%Q else vy in
  let xc :=
    ceil (gf_div (gfloat_of_gdouble (rect_width viewport))
            (gfloat_of_gdouble size)) + 1 in
  let yc :=
    ceil (gf_div (gfloat_of_gdouble (rect_height viewport))
            (gfloat_of_gdouble size)) + 1 in
  let xf := gint_of_gdouble (gd_div vx size) in
  let yf := gint_of_gdouble (gd_div vy size) in
  let xc := xc + xf in
  let yc := yc + yf in
  let xc := if xc >? champlain_zoom_level_get_width l
            then champlain_zoom_level_get_width l else xc in
  let yc := if yc >? champlain_zoom_level_get_height l
            then champlain_zoom_level_get_height l else yc in
  {| x_first := xf; y_first := yf; x_count := xc; y_count := yc |}.

(** The test of the first loop: the tile is dropped. *)
Definition out_of_range (r : TileRange) (t : ChamplainTile) : bool :=
  (tile_x t <? x_first r) || (tile_x t >? x_count r)
  || (tile_y t <? y_first r) || (tile_y t >? y_count r).

(** What the first loop does to the group of the level for one dropped
    tile. *)
Definition detach_events (t : ChamplainTile) : list Event :=
  if ChamplainState_eqb (tile_state t) CHAMPLAIN_STATE_DONE then
    match tile_actor t with
    | Some _ => [GroupRemove (tile_x t) (tile_y t)]
    | None => []
    end
  else [].

(** "Get rid of old tiles first": the [while (k < count)] loop.  Every turn
    either moves [k] forward or shortens the array, so the loop is run with
    one unit of fuel per tile plus one for the last test. *)
Fixpoint remove_old_tiles (fuel : nat) (r : TileRange) (k : nat)
    (l : ZoomLevel) (evs : list Event) : M (ZoomLevel * list Event) :=
  match fuel with
  | O => crash OutOfFuel
  | S fuel' =>
      if Z.of_nat k <? champlain_zoom_level_tile_count l then
        match champlain_zoom_level_get_nth_tile l k with
        | None => remove_old_tiles fuel' r (S k) l evs
        | Some tile =>
            if out_of_range r tile
            then remove_old_tiles fuel' r k
                   (champlain_zoom_level_remove_tile l k)
                   (detach_events tile ++ evs)
            else remove_old_tiles fuel' r (S k) l evs
        end
      else mret (l, evs)
  end.

(** The integers [lo], [lo + 1], ..., [hi - 1] a [for] loop runs through. *)
Definition zrange (lo hi : Z) : list Z :=
  List.map (fun n => lo + Z.of_nat n) (seq 0 (Z.to_nat (hi - lo))).

(** The body of the two nested [for] loops: the search for a tile at
    [(i, j)], and the creation of the tile when there is none. *)
Definition load_tile (src : ChamplainMapSource) (i j : Z)
    (st : ZoomLevel * list Event) : ZoomLevel * list Event :=
  let '(l, evs) := st in
  if existsb (same_cell i j) (tiles l) then st
  else
    let tile :=
      tile_set_position i j (champlain_zoom_level_get_zoom_level l)
        champlain_tile_new in
    (champlain_zoom_level_add_tile l (champlain_map_source_fill_tile src tile),
     FillTile (champlain_zoom_level_get_zoom_level l) i j
       :: GroupAdd i j :: evs).

(** "Load new tiles if needed": the two nested [for] loops. *)
Definition load_new_tiles (src : ChamplainMapSource) (r : TileRange)
    (st : ZoomLevel * list Event) : ZoomLevel * list Event :=
  fold_left
    (fun st i =>
       fold_left (fun st j => load_tile src i j st)
         (zrange (y_first r) (y_count r)) st)
    (zrange (x_first r) (x_count r)) st.

(** [view_load_visible_tiles]; it reads the current level of the map
    without testing that there is a map. *)
Definition view_load_visible_tiles (v : ChamplainView) : M ChamplainView :=
  match map v with
  | None => crash NullDereference
  | Some m =>
      let l := current_level m in
      let r := visible_range v l in
      st ← remove_old_tiles (S (length (tiles l))) r 0 l [];
      let '(l', evs) := load_new_tiles (map_source v) r st in
      view_update_state
        (emit evs (set_map (Some {| current_level := l' |}) v))
  end.

(** Arithmetic on [guint] wraps. *)
Definition guint (z : Z) : Z := z mod 2 ^ 32.

(** [resize_viewport]: the bounds of the two scroll adjustments. *)
Definition resize_viewport (v : ChamplainView) : ChamplainView :=
  match map v with
  | None => v
  | Some m =>
      let size := champlain_map_source_get_tile_size (map_source v) in
      let w := rect_width (viewport_size v) in
      let h := rect_height (viewport_size v) in
      let hbounds :=
        if zoom_level v <? 8 then
          (gd_div (Qopp w) 2,
           gd_sub
             (gd_of_int
                (guint (champlain_zoom_level_get_width (current_level m) * size)))
             (half w))
        else (0%Q, gd_of_int G_MAXINT16) in
      let vbounds :=
        if zoom_level v <? 8 then
          (gd_div (Qopp h) 2,
           gd_sub
             (gd_of_int
                (guint (champlain_zoom_level_get_height (current_level m) * size)))
             (half h))
        else (0%Q, gd_of_int G_MAXINT16) in
      emit [SetAdjustments false (fst vbounds) (snd vbounds);
            SetAdjustments true (fst hbounds) (snd hbounds)] v
  end.

(** The flag [need_update] of [view_update_anchor]: the zoom level changed
    since the anchor was computed, or the centre, seen from the anchor, plus
    the extent of the viewport reaches [G_MAXINT16]. *)
Definition need_update (v : ChamplainView) (x y : Z) : bool :=
  negb (anchor_zoom_level v =? zoom_level v)
  || gd_leb (gd_of_int G_MAXINT16)
       (gd_add (gd_sub (gd_of_int x) (pt_x (anchor v)))
          (rect_width (viewport_size v)))
  || gd_leb (gd_of_int G_MAXINT16)
       (gd_add (gd_sub (gd_of_int y) (pt_y (anchor v)))
          (rect_height (viewport_size v))).

(** [view_update_anchor] *)
Definition view_update_anchor (v : ChamplainView) (x y : Z) : M ChamplainView :=
  let need_anchor := 8 <=? zoom_level v in
  v1 ← (if need_anchor && need_update v x y then
          match map v with
          | None => crash NullDereference
          | Some m =>
              let ax := gd_of_int (x - Z.quot G_MAXINT16 2) in
              let ay := gd_of_int (y - Z.quot G_MAXINT16 2) in
              let ax := if gd_ltb ax 0 then 0%Q else ax in
              let ay := if gd_ltb ay 0 then 0%Q else ay in
              let max :=
                gd_of_int
                  (guint
                     (champlain_zoom_level_get_width (current_level m)
                      * champlain_map_source_get_tile_size (map_source v)
                      - Z.quot G_MAXINT16 2)) in
              let ax := if gd_ltb max ax then max else ax in
              let ay := if gd_ltb max ay then max else ay in
              mret (set_anchor {| pt_x := ax; pt_y := ay |} (zoom_level v) v)
          end
        else mret v);
  if need_anchor then mret v1
  else mret (set_anchor {| pt_x := 0%Q; pt_y := 0%Q |} (zoom_level v1) v1).

(** [viewport_pos_changed_cb], the handler of the origin notifications of
    the viewport.  When the anchor moved the handler sets a new origin, which
    notifies the handler again: [fuel] bounds that nesting. *)
Fixpoint viewport_pos_changed_cb (fuel : nat) (v : ChamplainView)
  : M ChamplainView :=
  match fuel with
  | O => crash OutOfFuel
  | S fuel' =>
      let rect := viewport_origin v in
      if gd_eqb (pt_x rect) (rect_x (viewport_size v))
         && gd_eqb (pt_y rect) (rect_y (viewport_size v))
      then mret v
      else
        let old_anchor := anchor v in
        v1 ← view_update_anchor v
               (gint_of_gdouble
                  (gd_add (gd_add (pt_x rect) (pt_x (anchor v)))
                     (half (rect_width (viewport_size v)))))
               (gint_of_gdouble
                  (gd_add (gd_add (pt_y rect) (pt_y (anchor v)))
                     (half (rect_height (viewport_size v)))));
        if negb (gd_eqb (gd_sub (pt_x (anchor v1)) (pt_x old_anchor)) 0)
        then
          let diff_x := gd_sub (pt_x (anchor v1)) (pt_x old_anchor) in
          let diff_y := gd_sub (pt_y (anchor v1)) (pt_y old_anchor) in
          tidy_viewport_set_origin (viewport_pos_changed_cb fuel') v1
            (gd_sub (pt_x rect) diff_x) (gd_sub (pt_y rect) diff_y)
        else
          let v2 :=
            set_viewport_size
              {| rect_x := pt_x rect; rect_y := pt_y rect;
                 rect_width := rect_width (viewport_size v1);
                 rect_height := rect_height (viewport_size v1) |} v1 in
          v3 ← view_load_visible_tiles v2;
          v4 ← view_tiles_reposition v3;
          let v5 :=
            set_center (viewport_get_current_latitude v4)
              (viewport_get_current_longitude v4) v4 in
          mret (emit [Notify PROP_LATITUDE; Notify PROP_LONGITUDE] v5)
  end.

(** [create_initial_map] *)
Definition create_initial_map (v : ChamplainView) : M ChamplainView :=
  let v1 := set_map (Some (map_load_level (map_source v) (zoom_level v))) v in
  let v2 := emit [MapLayerAdd (zoom_level v)] v1 in
  v3 ← view_tiles_reposition v2;
  mret (emit [Notify PROP_MAP_SOURCE; Notify PROP_ZOOM_LEVEL] v3).

(** [champlain_view_center_on] *)
Definition champlain_view_center_on (fuel : nat) (v : ChamplainView)
    (lat lon : gdouble) : M ChamplainView :=
  let v0 := set_center lat lon v in
  v1 ← (match map v0 with
        | None => create_initial_map v0
        | Some _ => mret v0
        end);
  let x := champlain_map_source_get_x (map_source v1) (zoom_level v1) lon in
  let y := champlain_map_source_get_y (map_source v1) (zoom_level v1) lat in
  v2 ← view_update_anchor v1 x y;
  let x := gint_of_gdouble (gd_sub (gd_of_int x) (pt_x (anchor v2))) in
  let y := gint_of_gdouble (gd_sub (gd_of_int y) (pt_y (anchor v2))) in
  v3 ← tidy_viewport_set_origin (viewport_pos_changed_cb fuel) v2
         (gd_sub (gd_of_int x) (half (rect_width (viewport_size v2))))
         (gd_sub (gd_of_int y) (half (rect_height (viewport_size v2))));
  let v4 := emit [Notify PROP_LATITUDE; Notify PROP_LONGITUDE] v3 in
  v5 ← view_load_visible_tiles v4;
  view_tiles_reposition v5.

(** [champlain_view_set_size] *)
Definition champlain_view_set_size (fuel : nat) (v : ChamplainView)
    (width height : Z) : M ChamplainView :=
  let v1 :=
    set_viewport_size
      {| rect_x := rect_x (viewport_size v); rect_y := rect_y (viewport_size v);
         rect_width := gd_of_int width; rect_height := gd_of_int height |} v in
  let v2 := resize_viewport v1 in
  if keep_center_on_resize v2
  then champlain_view_center_on fuel v2 (latitude v2) (longitude v2)
  else view_load_visible_tiles v2.



(** [timeline_new_frame]: [alpha] is the value of the alpha of the timeline
    at this frame. *)
Definition timeline_new_frame (fuel : nat) (v : ChamplainView)
    (ctx : GoToContext) (alpha : gdouble) : M ChamplainView :=
  let lat := gd_sub (to_latitude ctx) (from_latitude ctx) in
  let lon := gd_sub (to_longitude ctx) (from_longitude ctx) in
  champlain_view_center_on fuel v
    (gd_add (from_latitude ctx) (gd_mul alpha lat))
    (gd_add (from_longitude ctx) (gd_mul alpha lon)).

(** [champlain_view_stop_go_to] *)
Definition champlain_view_stop_go_to (v : ChamplainView) : ChamplainView :=
  match goto_context v with
  | None => v
  | Some c =>
      let v1 := clutter_timeline_stop (timeline c) v in
      let v2 := emit [AnimationCompleted] v1 in
      set_goto None (timelines v2) (next_timeline v2) v2
  end.

(** [timeline_completed] *)
Definition timeline_completed (v : ChamplainView) : ChamplainView :=
  champlain_view_stop_go_to v.

(** [champlain_view_go_to_with_duration] *)
Definition champlain_view_go_to_with_duration (fuel : nat) (v : ChamplainView)
    (lat lon : gdouble) (duration : Z) : M ChamplainView :=
  if duration =? 0 then champlain_view_center_on fuel v lat lon
  else
    let v1 := champlain_view_stop_go_to v in
    let ctx :=
      {| timeline := next_timeline v1;
         to_latitude := lat; to_longitude := lon;
         from_latitude := latitude v1; from_longitude := longitude v1 |} in
    let v2 := set_goto (Some ctx) (timelines v1) (S (next_timeline v1)) v1 in
    mret (clutter_timeline_start ctx duration v2).

(** [champlain_view_go_to] *)
Definition champlain_view_go_to (fuel : nat) (v : ChamplainView)
    (lat lon : gdouble) : M ChamplainView :=
  let duration :=
    gint_of_gdouble (gd_div (gd_of_int (500 * zoom_level v)) 2) in
  champlain_view_go_to_with_duration fuel v lat lon duration.

(** Modelled from the spec: the frame clock is missing; what it delivers is
    a frame of a timeline, with the value of its alpha, or the completion of
    a timeline. *)
Inductive ClockEvent : Type :=
| NewFrame (t : nat) (alpha : gdouble)
| Completed (t : nat).

(** Modelled from the spec: the frame clock is missing; the context the
    new-frame handler of a started timeline was connected with. *)
Definition lookup_timeline (t : nat) (v : ChamplainView) : option GoToContext :=
  snd <$> List.find (fun p => Nat.eqb (fst p) t) (timelines v).

(** Modelled from the spec: the frame clock is missing; an event reaches the
    handlers connected in [champlain_view_go_to_with_duration] only while
    its timeline is started. *)
Definition clock_deliver (fuel : nat) (v : ChamplainView) (e : ClockEvent)
  : M ChamplainView :=
  match e with
  | NewFrame t alpha =>
      match lookup_timeline t v with
      | Some ctx => timeline_new_frame fuel v ctx alpha
      | None => mret v
      end
  | Completed t =>
      match lookup_timeline t v with
      | Some _ => mret (timeline_completed v)
      | None => mret v
      end
  end.

(** Modelled from the spec: the frame clock is missing; the events of a run
    are delivered in order. *)
Fixpoint clock_run (fuel : nat) (v : ChamplainView) (es : list ClockEvent)
  : M ChamplainView :=
  match es with
  | [] => mret v
  | e :: es' => v' ← clock_deliver fuel v e; clock_run fuel v' es'
  end.

(** The macro [ZOOM_LEVEL_OUT_OF_RANGE]. *)
Definition ZOOM_LEVEL_OUT_OF_RANGE (v : ChamplainView) (z : Z) : bool :=
  (z <? min_zoom_level v) || (z >? max_zoom_level v).

(** [champlain_view_set_zoom_level] *)
Definition champlain_view_set_zoom_level (fuel : nat) (v : ChamplainView)
    (z : Z) : M ChamplainView :=
  match map v with
  | None => mret v
  | Some m =>
      if (z =? zoom_level v) || ZOOM_LEVEL_OUT_OF_RANGE v z then mret v
      else
        let v1 := champlain_view_stop_go_to v in
        match map_zoom_to m (map_source v1) z with
        | None => mret v1
        | Some m' =>
            let v2 := set_zoom_level z (set_map (Some m') v1) in
            let lon := longitude v2 in
            let lat := latitude v2 in
            let v3 := resize_viewport v2 in
            let v4 :=
              emit [MapLayerAdd z; MapLayerRemove (level (current_level m))]
                v3 in
            v5 ← champlain_view_center_on fuel v4 lat lon;
            mret (emit [Notify PROP_ZOOM_LEVEL] v5)
        end
  end.

(** [champlain_view_set_min_zoom_level] *)
Definition champlain_view_set_min_zoom_level (fuel : nat) (v : ChamplainView)
    (min : Z) : M ChamplainView :=
  if (min_zoom_level v =? min) || (min >? max_zoom_level v)
     || (min <? champlain_map_source_get_min_zoom_level (map_source v))
  then mret v
  else
    let v1 :=
      {| map_source := map_source v; zoom_level := zoom_level v;
         min_zoom_level := min; max_zoom_level := max_zoom_level v;
         longitude := longitude v; latitude := latitude v; anchor := anchor v;
         anchor_zoom_level := anchor_zoom_level v; map := map v;
         viewport_origin := viewport_origin v;
         finger_scroll_position := finger_scroll_position v;
         viewport_size := viewport_size v;
         keep_center_on_resize := keep_center_on_resize v; state := state v;
         goto_context := goto_context v; timelines := timelines v;
         next_timeline := next_timeline v; log := log v |} in
    if zoom_level v1 <? min then champlain_view_set_zoom_level fuel v1 min
    else mret v1.

(** [champlain_view_set_max_zoom_level] *)
Definition champlain_view_set_max_zoom_level (fuel : nat) (v : ChamplainView)
    (max : Z) : M ChamplainView :=
  if (max_zoom_level v =? max) || (max <? min_zoom_level v)
     || (max >? champlain_map_source_get_max_zoom_level (map_source v))
  then mret v
  else
    let v1 :=
      {| map_source := map_source v; zoom_level := zoom_level v;
         min_zoom_level := min_zoom_level v; max_zoom_level := max;
         longitude := longitude v; latitude := latitude v; anchor := anchor v;
         anchor_zoom_level := anchor_zoom_level v; map := map v;
         viewport_origin := viewport_origin v;
         finger_scroll_position := finger_scroll_position v;
         viewport_size := viewport_size v;
         keep_center_on_resize := keep_center_on_resize v; state := state v;
         goto_context := goto_context v; timelines := timelines v;
         next_timeline := next_timeline v; log := log v |} in
    if zoom_level v1 >? max then champlain_view_set_zoom_level fuel v1 max
    else mret v1.

(** [champlain_view_zoom_in] and [champlain_view_zoom_out] *)
Definition champlain_view_zoom_in (fuel : nat) (v : ChamplainView)
  : M ChamplainView := champlain_view_set_zoom_level fuel v (zoom_level v + 1).

Definition champlain_view_zoom_out (fuel : nat) (v : ChamplainView)
  : M ChamplainView := champlain_view_set_zoom_level fuel v (zoom_level v - 1).

(** [view_set_zoom_level_at]: the [gboolean] it returns comes with the
    view. *)
Definition view_set_zoom_level_at (fuel : nat) (v : ChamplainView)
    (z x y : Z) : M (ChamplainView * bool) :=
  if (z =? zoom_level v) || ZOOM_LEVEL_OUT_OF_RANGE v z then mret (v, false)
  else
    let v1 := champlain_view_stop_go_to v in
    match map v1 with
    | None => crash NullDereference
    | Some m =>
        let rel_x := gd_sub (gd_of_int x) (pt_x (finger_scroll_position v1)) in
        let rel_y := gd_sub (gd_of_int y) (pt_y (finger_scroll_position v1)) in
        let lon :=
          viewport_get_longitude_at v1
            (gint_of_gdouble
               (gd_add (gd_add (rect_x (viewport_size v1)) rel_x)
                  (pt_x (anchor v1)))) in
        let lat :=
          viewport_get_latitude_at v1
            (gint_of_gdouble
               (gd_add (gd_add (rect_y (viewport_size v1)) rel_y)
                  (pt_y (anchor v1)))) in
        let x_diff :=
          gint_of_gdouble (gd_sub (half (rect_width (viewport_size v1))) rel_x) in
        let y_diff :=
          gint_of_gdouble (gd_sub (half (rect_height (viewport_size v1))) rel_y) in
        match map_zoom_to m (map_source v1) z with
        | None => mret (v1, false)
        | Some m' =>
            let v2 := set_zoom_level z (set_map (Some m') v1) in
            let x2 := champlain_map_source_get_x (map_source v2) z lon in
            let y2 := champlain_map_source_get_y (map_source v2) z lat in
            let lon2 :=
              champlain_map_source_get_longitude (map_source v2) z (x2 + x_diff) in
            let lat2 :=
              champlain_map_source_get_latitude (map_source v2) z (y2 + y_diff) in
            let v3 := resize_viewport v2 in
            let v4 :=
              emit [MapLayerAdd z; MapLayerRemove (level (current_level m))]
                v3 in
            v5 ← champlain_view_center_on fuel v4 lat2 lon2;
            mret (emit [Notify PROP_ZOOM_LEVEL] v5, true)
        end
    end.

(** The test of [champlain_view_ensure_visible] at one zoom level. *)
Definition box_fits (v : ChamplainView) (z : Z)
    (min_lat min_lon max_lat max_lon : gdouble) : bool :=
  let min_x := champlain_map_source_get_x (map_source v) z min_lon in
  let min_y := champlain_map_source_get_y (map_source v) z min_lat in
  let max_x := champlain_map_source_get_x (map_source v) z max_lon in
  let max_y := champlain_map_source_get_y (map_source v) z max_lat in
  gd_leb (gd_of_int (min_y - max_y)) (rect_height (viewport_size v))
  && gd_leb (gd_of_int (max_x - min_x)) (rect_width (viewport_size v)).

(** The [do ... while] loop of [champlain_view_ensure_visible]: the zoom
    level it stops at, and [good_size]. *)
Fixpoint ensure_visible_loop (fuel : nat) (v : ChamplainView) (z : Z)
    (min_lat min_lon max_lat max_lon : gdouble) : M (Z * bool) :=
  match fuel with
  | O => crash OutOfFuel
  | S fuel' =>
      let good_size := box_fits v z min_lat min_lon max_lat max_lon in
      let z' := if good_size then z else z - 1 in
      if z' <=? min_zoom_level v then mret (z', good_size)
      else if good_size then mret (z', good_size)
      else ensure_visible_loop fuel' v z' min_lat min_lon max_lat max_lon
  end.

(** [champlain_view_ensure_visible] *)
Definition champlain_view_ensure_visible (fuel : nat) (v : ChamplainView)
    (lat1 lon1 lat2 lon2 : gdouble) (animate : bool) : M ChamplainView :=
  let '(min_lat, max_lat) :=
    if gd_ltb lat1 lat2 then (lat1, lat2) else (lat2, lat1) in
  let '(min_lon, max_lon) :=
    if gd_ltb lon1 lon2 then (lon1, lon2) else (lon2, lon1) in
  let width := gd_mul (gd_sub max_lon min_lon) (11 # 10) in
  let height := gd_mul (gd_sub max_lat min_lat) (11 # 10) in
  found ←
    ensure_visible_loop (S (Z.to_nat (zoom_level v - min_zoom_level v)))
      v (zoom_level v) min_lat min_lon max_lat max_lon;
  let good_size := snd (found : Z * bool) in
  let z := if good_size then fst found else min_zoom_level v in
  let min_lat := if good_size then min_lat else 0%Q in
  let min_lon := if good_size then min_lon else 0%Q in
  let width := if good_size then width else 0%Q in
  let height := if good_size then height else 0%Q in
  v1 ← champlain_view_set_zoom_level fuel v z;
  if animate
  then champlain_view_go_to fuel v1
         (gd_add min_lat (half height)) (gd_add min_lon (half width))
  else champlain_view_center_on fuel v1
         (gd_add min_lat (half height)) (gd_add min_lon (half width)).

(** The fields [champlain_view_init] resets, before it gives the view a
    size: there is no map yet. *)
Definition blank_view (src : ChamplainMapSource) : ChamplainView :=
  {| map_source := src;
     zoom_level := 0;
     min_zoom_level := champlain_map_source_get_min_zoom_level src;
     max_zoom_level := champlain_map_source_get_max_zoom_level src;
     longitude := 0%Q; latitude := 0%Q;
     anchor := {| pt_x := 0%Q; pt_y := 0%Q |};
     anchor_zoom_level := 0;
     map := None;
     viewport_origin := {| pt_x := 0%Q; pt_y := 0%Q |};
     finger_scroll_position := {| pt_x := 0%Q; pt_y := 0%Q |};
     viewport_size :=
       {| rect_x := 0%Q; rect_y := 0%Q;
          rect_width := 0%Q; rect_height := 0%Q |};
     keep_center_on_resize := true;
     state := CHAMPLAIN_STATE_INIT;
     goto_context := None; timelines := []; next_timeline := O;
     log := [] |}.

(** [champlain_view_init], for a view created on the source [src]: the
    fields are reset, then the view is given its size, which centres it. *)
Definition champlain_view_init (fuel : nat) (src : ChamplainMapSource)
  : M ChamplainView :=
  v1 ← champlain_view_set_size fuel (blank_view src) 0 0;
  let v2 := resize_viewport v1 in
  mret (emit [Notify PROP_STATE] (set_state CHAMPLAIN_STATE_DONE v2)).

(** ** Sources and views used in the examples *)

(** A source with a linear projection onto a grid of [2^zoom] columns and
    [rows_per_column * 2^zoom] rows of 256-pixel tiles. *)
Definition linear_source (rows_per_column : Z) : ChamplainMapSource :=
  {| champlain_map_source_get_tile_size := 256;
     champlain_map_source_get_min_zoom_level := 0;
     champlain_map_source_get_max_zoom_level := 18;
     champlain_map_source_get_row_count := fun z => rows_per_column * 2 ^ z;
     champlain_map_source_get_column_count := fun z => 2 ^ z;
     champlain_map_source_get_x := fun z lon =>
       Qfloor ((lon + 180) / 360 * inject_Z (256 * 2 ^ z));
     champlain_map_source_get_y := fun z lat =>
       Qfloor ((90 - lat) / 180 * inject_Z (rows_per_column * 256 * 2 ^ z));
     champlain_map_source_get_longitude := fun z x =>
       Qred (inject_Z x / inject_Z (256 * 2 ^ z) * 360 - 180);
     champlain_map_source_get_latitude := fun z y =>
       Qred (90 - inject_Z y / inject_Z (rows_per_column * 256 * 2 ^ z) * 180)
  |}.

(** The source whose grid is square, as the sources of the library are. *)
Definition square_source : ChamplainMapSource := linear_source 1.

(** Reading a component off the result of a call. *)
#[global] Instance M_fmap : FMap M := fun A B f m =>
  match m with
  | inl e => inl e
  | inr a => inr (f a)
  end.

(** A view on the square source, 800 by 600 pixels, as the host gets it
    from [champlain_view_init] and [champlain_view_set_size]. *)
Definition view_800x600 : M ChamplainView :=
  v ← champlain_view_init 4 square_source;
  champlain_view_set_size 4 v 800 600.


(** What a C call hands back to its caller. *)
Inductive returned : Type :=
| Void
| GBoolean (b : bool).

(** The caller is told of a failure when it gets FALSE. *)
Definition indicates_failure (r : returned) : bool :=
  match r with
  | GBoolean false => true
  | _ => false
  end.

(** [champlain_view_set_zoom_level] is declared [void]. *)
Definition returned_by_set_zoom_level (r : M ChamplainView) : M returned :=
  (fun _ => Void) <$> r.

(** [view_set_zoom_level_at] is declared [gboolean]. *)
Definition returned_by_set_zoom_level_at (r : M (ChamplainView * bool))
  : M returned := (fun p => GBoolean (snd p)) <$> r.

(** The scenario of the go-to that is driven to completion: a go-to of 300
    ms from (0, 0) to latitude 45, longitude 90 on [view_800x600]; the clock
    delivers one frame half way, skips the others, and completes. *)
Definition go_to_driven_to_completion : M ChamplainView :=
  v ← view_800x600;
  v1 ← champlain_view_go_to_with_duration 4 v 45 90 300;
  clock_run 4 v1 [NewFrame 0 (1 # 2); Completed 0].


(** ** Vocabulary of the statements *)

(** A tile the first loop keeps. *)
Definition in_range (r : TileRange) (t : ChamplainTile) : bool :=
  negb (out_of_range r t).

(** The events the first loop adds to [evs] when it goes through [ts]. *)
Definition dropped_events (r : TileRange) (ts : list ChamplainTile)
    (evs : list Event) : list Event :=
  fold_left
    (fun acc t => if out_of_range r t then detach_events t ++ acc else acc)
    ts evs.

(** The cells the two [for] loops visit, in the order they visit them. *)
Definition cells (r : TileRange) : list (Z * Z) :=
  flat_map (fun i => List.map (pair i) (zrange (y_first r) (y_count r)))
    (zrange (x_first r) (x_count r)).

Definition load_cells (src : ChamplainMapSource) (cs : list (Z * Z))
    (st : ZoomLevel * list Event) : ZoomLevel * list Event :=
  fold_left (fun st c => load_tile src (fst c) (snd c) st) cs st.

(** The tile the second loop creates for the cell [(i, j)]. *)
Definition fresh_tile (src : ChamplainMapSource) (zoom i j : Z) : ChamplainTile :=
  champlain_map_source_fill_tile src
    (tile_set_position i j zoom champlain_tile_new).

(** The position at which a tile is drawn in the window: the position
    [view_position_tile] gives its actor, seen through the origin of the
    viewport. *)
Definition rendered_position (v : ChamplainView) (t : ChamplainTile)
  : option (gdouble * gdouble) :=
  match tile_actor (view_position_tile v t) with
  | Some p =>
      Some (gd_sub (pt_x p) (pt_x (viewport_origin v)),
            gd_sub (pt_y p) (pt_y (viewport_origin v)))
  | None => None
  end.

(** At most one animation: the context of the view, when there is one, is
    the context of the only started timeline. *)
Definition one_animation (v : ChamplainView) : Prop :=
  match goto_context v with
  | None => timelines v = []
  | Some c => timelines v = [(timeline c, c)] /\ (timeline c < next_timeline v)%nat
  end.

(** The anchor as the specification words it: on each axis the centre minus
    half the bound, clamped between 0 and the extent of the grid on that
    axis minus half the bound. *)
Definition clamp (x lo hi : Z) : Z := Z.min (Z.max x lo) hi.

(** The anchor of the specification for the centre [(x, y)] on the grid of
    the level [l]. *)
Definition anchor_as_specified (l : ZoomLevel) (x y : Z) : ChamplainFloatPoint :=
  {| pt_x := gd_of_int
               (clamp (x - Z.quot G_MAXINT16 2) 0
                  (zoom_level_get_width l - Z.quot G_MAXINT16 2));
     pt_y := gd_of_int
               (clamp (y - Z.quot G_MAXINT16 2) 0
                  (zoom_level_get_height l - Z.quot G_MAXINT16 2)) |}.


(** A view that shows the level [l] of the source [src]: viewport at
    [(x, y)], [w] by [h] pixels, anchor [a] computed for the zoom level of
    [l]. *)
Definition view_showing (src : ChamplainMapSource) (l : ZoomLevel)
    (a : ChamplainFloatPoint) (x y w h : gdouble) : ChamplainView :=
  {| map_source := src;
     zoom_level := level l;
     min_zoom_level := champlain_map_source_get_min_zoom_level src;
     max_zoom_level := champlain_map_source_get_max_zoom_level src;
     longitude := 0%Q; latitude := 0%Q;
     anchor := a;
     anchor_zoom_level := level l;
     map := Some {| current_level := l |};
     viewport_origin := {| pt_x := x; pt_y := y |};
     finger_scroll_position := {| pt_x := 0%Q; pt_y := 0%Q |};
     viewport_size :=
       {| rect_x := x; rect_y := y; rect_width := w; rect_height := h |};
     keep_center_on_resize := true;
     state := CHAMPLAIN_STATE_DONE;
     goto_context := None; timelines := []; next_timeline := O;
     log := [] |}.

(** A loaded tile of 256 pixels whose actor is at [pos]. *)
Definition done_tile (zoom x y : Z) (pos : ChamplainFloatPoint) : ChamplainTile :=
  {| tile_x := x; tile_y := y; tile_zoom_level := zoom; tile_size := 256;
     tile_state := CHAMPLAIN_STATE_DONE; tile_actor := Some pos |}.

(** Zoom level 8 of the square source, anchored at (3617, 3617) for the
    centre (20000, 20000), with the tile (78, 140) loaded; the user has
    scrolled straight down to the origin (15983, 31866). *)
Definition deep_tile : ChamplainTile :=
  done_tile 8 78 140 {| pt_x := 16351; pt_y := 32223 |}.

(** The view of that scroll. *)
Definition deep_view : ChamplainView :=
  view_showing square_source
    (set_tiles [deep_tile] (zoom_level_new 8 256 256 256))
    {| pt_x := 3617; pt_y := 3617 |} 15983 31866 800 600.

(** The next pixel of the same scroll: the viewport reports the origin
    (15983, 31867); and a scroll to the right instead, to (32000, 16083). *)
Definition deep_view_scrolled_down : ChamplainView :=
  set_viewport_origin {| pt_x := 15983; pt_y := 31867 |} deep_view.

(** The scroll to the right. *)
Definition deep_view_scrolled_right : ChamplainView :=
  set_viewport_origin {| pt_x := 31967; pt_y := 31866 |} deep_view.

(** Zoom level 18 of the square source in a viewport 16777217 pixels wide,
    one more than 2^24. *)
Definition wide_view : ChamplainView :=
  view_showing square_source (zoom_level_new 18 262144 262144 256)
    {| pt_x := 0; pt_y := 0 |} 0 0 16777217 600.

(** Zoom level 8 of a source whose grid is twice as high as it is wide
    (256 columns, 512 rows). *)
Definition tall_view : ChamplainView :=
  view_showing (linear_source 2) (zoom_level_new 8 512 256 256)
    {| pt_x := 0; pt_y := 0 |} 0 0 800 600.


(** A view of 300 by 300 pixels on the square source, at zoom level 3, with
    the minimum zoom level raised to 2; the two positions to show are
    latitude 50, longitude 100 and latitude 80, longitude 170. *)
Definition small_view_at_zoom_3 : M ChamplainView :=
  v ← champlain_view_init 4 square_source;
  v1 ← champlain_view_set_size 4 v 300 300;
  v2 ← champlain_view_set_zoom_level 4 v1 3;
  champlain_view_set_min_zoom_level 4 v2 2.

(** The context of a go-to from (0, 0) to latitude 45, longitude 90. *)
Definition example_context : GoToContext :=
  {| timeline := 0; to_latitude := 45; to_longitude := 90;
     from_latitude := 0; from_longitude := 0 |}.

(** [deep_view] while that go-to runs. *)
Definition animated_view : ChamplainView :=
  clutter_timeline_start example_context 300
    (set_goto (Some example_context) [] 1 deep_view).

(** A tile of [deep_view] that is in the window after the scroll to the
    right. *)
Definition east_tile : ChamplainTile :=
  done_tile 8 140 140 {| pt_x := 32223; pt_y := 32223 |}.

(** The same go-to, to latitude 10 and longitude 10, with the frame at the
    end of the timeline delivered before the completion. *)
Definition go_to_with_last_frame : M ChamplainView :=
  v ← view_800x600;
  v1 ← champlain_view_go_to_with_duration 4 v 10 10 300;
  clock_run 4 v1 [NewFrame 0 (1 # 2); NewFrame 0 1; Completed 0].

(** * Properties *)

(** ** The two loops of the reconciliation *)

Lemma set_tiles_same (l : ZoomLevel) : set_tiles (tiles l) l = l.
Proof. by destruct l. Qed.

Lemma remove_old_tiles_filter (fuel : nat) :
  forall (r : TileRange) (k : nat) (l : ZoomLevel) (evs : list Event),
    (length (tiles l) - k < fuel)%nat ->
    remove_old_tiles fuel r k l evs
    = inr (set_tiles
             (take k (tiles l) ++ List.filter (in_range r) (drop k (tiles l))) l,
           dropped_events r (drop k (tiles l)) evs).
Proof.
  induction fuel as [|fuel IH]; intros r k l evs Hfuel; [lia|].
  cbn [remove_old_tiles].
  unfold champlain_zoom_level_tile_count, champlain_zoom_level_get_nth_tile.
  destruct (Z.ltb_spec (Z.of_nat k) (Z.of_nat (length (tiles l)))) as [Hk|Hk].
  - assert (Hlt : (k < length (tiles l))%nat) by lia.
    destruct (lookup_lt_is_Some_2 _ _ Hlt) as [t Ht].
    rewrite Ht, (drop_S _ _ _ Ht). cbn [List.filter].
    unfold dropped_events. cbn [fold_left].
    unfold in_range at 1.
    destruct (out_of_range r t) eqn:Hout; cbn [negb].
    + rewrite IH.
      2:{ unfold champlain_zoom_level_remove_tile. cbn.
          rewrite length_delete by eauto. lia. }
      unfold champlain_zoom_level_remove_tile. cbn [tiles set_tiles].
      rewrite delete_take_drop.
      rewrite take_app_length' by (rewrite length_take; lia).
      rewrite drop_app_length' by (rewrite length_take; lia).
      reflexivity.
    + rewrite IH by lia.
      rewrite (take_S_r _ _ _ Ht), <- app_assoc. reflexivity.
  - rewrite drop_ge, take_ge by lia. cbn.
    rewrite app_nil_r, set_tiles_same. reflexivity.
Qed.

Lemma in_zrange (lo hi i : Z) : In i (zrange lo hi) <-> lo <= i < hi.
Proof.
  unfold zrange. rewrite in_map_iff. split.
  - intros (n & <- & Hn). apply in_seq in Hn. lia.
  - intros H. exists (Z.to_nat (i - lo)). split; [lia|].
    apply in_seq. lia.
Qed.

Lemma in_cells (r : TileRange) (i j : Z) :
  In (i, j) (cells r)
  <-> x_first r <= i < x_count r /\ y_first r <= j < y_count r.
Proof.
  unfold cells. rewrite in_flat_map. split.
  - intros (i' & Hi & Hj). apply in_map_iff in Hj as (j' & Heq & Hj).
    inversion Heq; subst. apply in_zrange in Hi, Hj. tauto.
  - intros [Hi Hj]. exists i. split; [by apply in_zrange|].
    apply in_map_iff. exists j. split; [done | by apply in_zrange].
Qed.

(** The second loop, for a fixed source. *)
Section LoadLoop.

Variable src : ChamplainMapSource.

Lemma load_new_tiles_cells (r : TileRange) (st : ZoomLevel * list Event) :
  load_new_tiles src r st = load_cells src (cells r) st.
Proof.
  unfold load_new_tiles, load_cells, cells.
  generalize (zrange (y_first r) (y_count r)) as ys.
  generalize (zrange (x_first r) (x_count r)) as xs.
  intros xs ys. revert st.
  induction xs as [|i xs IH]; intros st; [reflexivity|].
  cbn [fold_left flat_map]. rewrite fold_left_app, IH. f_equal.
  generalize st. clear.
  induction ys as [|j ys IH]; intros st; [reflexivity|].
  cbn [fold_left List.map]. apply IH.
Qed.

Lemma load_tile_step (i j : Z) (l : ZoomLevel) (evs : list Event) :
  load_tile src i j (l, evs)
  = if existsb (same_cell i j) (tiles l) then (l, evs)
    else (set_tiles (tiles l ++ [fresh_tile src (level l) i j]) l,
          FillTile (level l) i j :: GroupAdd i j :: evs).
Proof.
  unfold load_tile.
  destruct (existsb (same_cell i j) (tiles l)) eqn:He; [reflexivity|].
  unfold champlain_zoom_level_add_tile. cbn. rewrite He. reflexivity.
Qed.

Lemma fresh_tile_cell (z i j : Z) :
  same_cell i j (fresh_tile src z i j) = true.
Proof. unfold same_cell. cbn. rewrite !Z.eqb_refl. reflexivity. Qed.

(** What the second loop leaves: the tiles it found, followed by tiles in
    state Loading for cells it visited, and a tile for every cell it
    visited. *)
Lemma load_cells_appends (cs : list (Z * Z)) :
  forall (l : ZoomLevel) (evs : list Event),
  exists new,
    fst (load_cells src cs (l, evs)) = set_tiles (tiles l ++ new) l
    /\ Forall (fun t => tile_state t = CHAMPLAIN_STATE_LOADING
                        /\ In (tile_x t, tile_y t) cs) new
    /\ (forall c, In c cs ->
          existsb (same_cell (fst c) (snd c)) (tiles l ++ new) = true).
Proof.
  induction cs as [|[i j] cs IH]; intros l evs.
  - exists []. rewrite app_nil_r, set_tiles_same. cbn. auto.
  - unfold load_cells. cbn [fold_left fst snd]. rewrite load_tile_step.
    destruct (existsb (same_cell i j) (tiles l)) eqn:He.
    + destruct (IH l evs) as (new & Hl & Hnew & Hcov).
      exists new. split; [exact Hl|]. split.
      * eapply Forall_impl; [exact Hnew|]. cbn. intros t [? ?]. auto.
      * intros c [<-|Hc]; [|by apply Hcov].
        cbn. rewrite existsb_app, He. reflexivity.
    + destruct (IH (set_tiles (tiles l ++ [fresh_tile src (level l) i j]) l)
                  (FillTile (level l) i j :: GroupAdd i j :: evs))
        as (new & Hl & Hnew & Hcov).
      exists (fresh_tile src (level l) i j :: new).
      cbn [tiles set_tiles] in Hl, Hcov.
      rewrite <- app_assoc in Hl, Hcov. cbn [app] in Hl, Hcov.
      split; [exact Hl|]. split.
      * constructor; [cbn; auto|].
        eapply Forall_impl; [exact Hnew|]. cbn. intros t [? ?]. auto.
      * intros c [<-|Hc]; [|by apply Hcov].
        cbn [fst snd]. rewrite existsb_app. cbn [existsb].
        rewrite fresh_tile_cell. cbn. apply orb_true_r.
Qed.

(** When every cell already has a tile the second loop changes nothing. *)
Lemma load_cells_covered (cs : list (Z * Z)) (l : ZoomLevel)
    (evs : list Event) :
  (forall c, In c cs -> existsb (same_cell (fst c) (snd c)) (tiles l) = true) ->
  load_cells src cs (l, evs) = (l, evs).
Proof.
  induction cs as [|[i j] cs IH]; intros Hcov; [reflexivity|].
  unfold load_cells. cbn [fold_left fst snd]. rewrite load_tile_step.
  pose proof (Hcov (i, j) (or_introl eq_refl)) as Hij. cbn [fst snd] in Hij.
  rewrite Hij. apply IH. intros c Hc. apply Hcov. right. exact Hc.
Qed.

End LoadLoop.

Lemma ChamplainState_eqb_eq (a b : ChamplainState) :
  ChamplainState_eqb a b = true <-> a = b.
Proof. destruct a, b; cbn; split; congruence. Qed.

Lemma emit_nil (v : ChamplainView) : emit [] v = v.
Proof. by destruct v. Qed.

Lemma set_map_same (v : ChamplainView) : set_map (map v) v = v.
Proof. by destruct v. Qed.

(** The aggregate state the view derives from the tiles of a level. *)
Lemma view_update_state_settles (v : ChamplainView) (m : Map) :
  map v = Some m ->
  exists v1,
    view_update_state v = inr v1
    /\ view_update_state v1 = inr v1
    /\ map v1 = map v /\ map_source v1 = map_source v
    /\ viewport_size v1 = viewport_size v /\ anchor v1 = anchor v
    /\ (forall e, In e (log v) -> In e (log v1)).
Proof.
  intros Hm. unfold view_update_state. rewrite Hm.
  set (new_state := if existsb _ _ then _ else _).
  destruct (ChamplainState_eqb (state v) new_state) eqn:He.
  - exists v. rewrite Hm. fold new_state. rewrite He. auto 10.
  - exists (emit [Notify PROP_STATE] (set_state new_state v)).
    cbn. rewrite Hm. fold new_state.
    rewrite (proj2 (ChamplainState_eqb_eq new_state new_state) eq_refl).
    auto 10.
Qed.

Lemma filter_all {A : Type} (f : A -> bool) (l : list A) :
  (forall x, In x l -> f x = true) -> List.filter f l = l.
Proof.
  induction l as [|a l IH]; intros H; [reflexivity|].
  cbn. rewrite (H a) by (left; reflexivity).
  f_equal. apply IH. intros x Hx. apply H. right. exact Hx.
Qed.

Lemma dropped_events_none (r : TileRange) (ts : list ChamplainTile)
    (evs : list Event) :
  (forall t, In t ts -> in_range r t = true) -> dropped_events r ts evs = evs.
Proof.
  unfold dropped_events. revert evs.
  induction ts as [|t ts IH]; intros evs H; [reflexivity|].
  cbn [fold_left].
  pose proof (H t (or_introl eq_refl)) as Ht. unfold in_range in Ht.
  apply negb_true_iff in Ht. rewrite Ht.
  apply IH. intros x Hx. apply H. right. exact Hx.
Qed.


Lemma cell_in_range (r : TileRange) (t : ChamplainTile) :
  In (tile_x t, tile_y t) (cells r) -> in_range r t = true.
Proof.
  intros H. apply in_cells in H. unfold in_range, out_of_range.
  apply negb_true_iff. rewrite !orb_false_iff.
  repeat split; lia.
Qed.



(** One run of the reconciliation, in closed form. *)
Lemma view_load_visible_tiles_run (v : ChamplainView) (m : Map) :
  map v = Some m ->
  let l := current_level m in
  let r := visible_range v l in
  let st :=
    load_cells (map_source v) (cells r)
      (set_tiles (List.filter (in_range r) (tiles l)) l,
       dropped_events r (tiles l) []) in
  view_load_visible_tiles v
  = view_update_state
      (emit (snd st) (set_map (Some {| current_level := fst st |}) v)).
Proof.
  intros Hm l r st. unfold view_load_visible_tiles. rewrite Hm. fold l r.
  rewrite remove_old_tiles_filter by lia.
  rewrite drop_0, take_0. cbn [app mbind M_bind].
  rewrite load_new_tiles_cells. fold st. by destruct st.
Qed.

(** ** The covering range *)

Lemma gint_of_gdouble_floor (q : Q) :
  (0 <= q)%Q -> gint_of_gdouble q = Qfloor q.
Proof.
  destruct q as [n d]. unfold Qle, gint_of_gdouble, Qfloor. cbn.
  intros H. apply Z.quot_div_nonneg; lia.
Qed.

Lemma clamped_origin (q : Q) :
  ((if gd_ltb (Qred q) 0 then 0 else Qred q) == Qmax 0 q)%Q
  /\ (0 <= (if gd_ltb (Qred q) 0 then 0 else Qred q))%Q.
Proof.
  unfold gd_ltb. destruct (Qle_bool 0 (Qred q)) eqn:H; cbn [negb].
  - apply Qle_bool_iff in H. rewrite Qred_correct in H.
    split; [|by rewrite Qred_correct].
    rewrite Qred_correct. symmetry. by apply Q.max_r.
  - split; [|apply Qle_refl].
    symmetry. apply Q.max_l. apply Qlt_le_weak, Qnot_le_lt.
    intros Hle. rewrite <- (Qred_correct q) in Hle.
    apply Qle_bool_iff in Hle. congruence.
Qed.

Lemma first_index (q : Q) (size : Z) :
  0 < size ->
  gint_of_gdouble
    (gd_div (if gd_ltb (Qred q) 0 then 0%Q else Qred q) (gd_of_int size))
  = Qfloor (Qmax 0 q / inject_Z size).
Proof.
  intros Hsize. destruct (clamped_origin q) as [Heq Hpos].
  set (c := if gd_ltb (Qred q) 0 then 0%Q else Qred q) in *.
  assert (Hs : (0 < inject_Z size)%Q) by (unfold Qlt; cbn; lia).
  unfold gd_div, gd_of_int. rewrite gint_of_gdouble_floor.
  - apply Qfloor_comp. rewrite Qred_correct.
    apply Qdiv_comp; [exact Heq | reflexivity].
  - rewrite Qred_correct. apply Qle_shift_div_l; [exact Hs|].
    rewrite Qmult_0_l. exact Hpos.
Qed.

Lemma range_on_axis (o a w : Q) (size columns : Z) :
  0 < size ->
  let first :=
    gint_of_gdouble
      (gd_div (if gd_ltb (gd_add o a) 0 then 0%Q else gd_add o a)
         (gd_of_int size)) in
  let count :=
    ceil (gf_div (gfloat_of_gdouble w) (gfloat_of_gdouble (gd_of_int size)))
    + 1 + first in
  first = Qfloor (Qmax 0 (o + a) / inject_Z size)
  /\ (if count >? columns then columns else count)
     = Z.min
         (first
          + (Qceiling
               (gf_div (gfloat_of_gdouble w)
                  (gfloat_of_gdouble (inject_Z size))) + 1))
         columns.
Proof.
  intros Hsize first count. split.
  - subst first. unfold gd_add. by apply first_index.
  - subst count. unfold ceil, gd_of_int. clearbody first.
    generalize (Qceiling
                  (gf_div (gfloat_of_gdouble w)
                     (gfloat_of_gdouble (inject_Z size)))). intros c.
    rewrite Z.gtb_ltb.
    destruct (Z.ltb_spec columns (c + 1 + first)); lia.
Qed.

(** [visible_range] in closed form: the first index is the floor of the
    origin (moved by the anchor and clamped at 0) over the tile size, the
    end of the range is the first index plus the ceiling of the [gfloat]
    quotient of the extent by the tile size plus one, clamped to the columns
    and rows of the grid. *)
Lemma visible_range_formula (v : ChamplainView) (l : ZoomLevel) :
  0 < champlain_map_source_get_tile_size (map_source v) ->
  let size := inject_Z (champlain_map_source_get_tile_size (map_source v)) in
  let r := visible_range v l in
  x_first r
  = Qfloor (Qmax 0 (rect_x (viewport_size v) + pt_x (anchor v)) / size)
  /\ y_first r
     = Qfloor (Qmax 0 (rect_y (viewport_size v) + pt_y (anchor v)) / size)
  /\ x_count r
     = Z.min
         (x_first r
          + (Qceiling
               (gf_div (gfloat_of_gdouble (rect_width (viewport_size v)))
                  (gfloat_of_gdouble size)) + 1))
         (column_count l)
  /\ y_count r
     = Z.min
         (y_first r
          + (Qceiling
               (gf_div (gfloat_of_gdouble (rect_height (viewport_size v)))
                  (gfloat_of_gdouble size)) + 1))
         (row_count l).
Proof.
  intros Hsize size r. subst r size. unfold visible_range.
  cbn [x_first y_first x_count y_count].
  unfold champlain_zoom_level_get_width, champlain_zoom_level_get_height.
  destruct (range_on_axis (rect_x (viewport_size v)) (pt_x (anchor v))
              (rect_width (viewport_size v))
              (champlain_map_source_get_tile_size (map_source v))
              (column_count l) Hsize) as [Hx1 Hx2].
  destruct (range_on_axis (rect_y (viewport_size v)) (pt_y (anchor v))
              (rect_height (viewport_size v))
              (champlain_map_source_get_tile_size (map_source v))
              (row_count l) Hsize) as [Hy1 Hy2].
  cbv zeta in Hx1, Hx2, Hy1, Hy2.
  repeat split; assumption.
Qed.

(** ** The cast to [gfloat] *)

Lemma round_half_even_exact (a d : Z) :
  0 < d -> round_half_even (a * d) d = a.
Proof.
  intros Hd. unfold round_half_even.
  rewrite Z.div_mul, Z.mod_mul by lia.
  replace (2 * 0 ?= d) with Lt by (symmetry; apply Z.compare_lt_iff; lia).
  reflexivity.
Qed.

Lemma Qred_inject_Z (w : Z) : Qred (inject_Z w) = inject_Z w.
Proof.
  unfold Qred, inject_Z.
  pose proof (Z.ggcd_gcd w 1) as Hg.
  pose proof (Z.ggcd_correct_divisors w 1) as Hc.
  destruct (Z.ggcd w 1) as [g [aa bb]]. cbn in Hg.
  rewrite Z.gcd_1_r in Hg. subst g. destruct Hc as [-> Hb].
  replace bb with 1 by lia. f_equal. lia.
Qed.

Lemma inject_Z_pow2_nonzero (k : Z) :
  0 <= k -> ~ (inject_Z (2 ^ k) == 0)%Q.
Proof.
  intros Hk. unfold Qeq. cbn. intros H. rewrite Z.mul_1_r in H.
  pose proof (Z.pow_pos_nonneg 2 k ltac:(lia) Hk). lia.
Qed.

(** A number [w / 2^k] with at most 24 significant bits is a [gfloat]: the
    cast gives it back, in lowest terms. *)
Lemma gfloat_exact (q : Q) (w k : Z) :
  Qnum q = w -> Zpos (Qden q) = 2 ^ k ->
  0 <= w < 2 ^ 24 -> 0 <= k <= 126 ->
  gfloat_of_gdouble q = Qred q.
Proof.
  intros Hn Hd Hw Hk.
  assert (Hq : (q == inject_Z w / inject_Z (2 ^ k))%Q).
  { destruct q as [n d]. cbn in Hn, Hd. subst n.
    rewrite Qmake_Qdiv, Hd. reflexivity. }
  unfold gfloat_of_gdouble. rewrite Hn, Hd.
  destruct (Z.eqb_spec (Z.abs w) 0) as [H0|H0].
  { change 0%Q with (Qred 0). apply Qred_complete.
    unfold Qeq. cbn. lia. }
  rewrite Z.abs_eq by lia.
  replace (w <? 0) with false by (symmetry; apply Z.ltb_ge; lia).
  assert (Hpos : 0 < w) by lia.
  pose proof (Z.log2_spec w Hpos) as HL.
  pose proof (Z.log2_nonneg w) as HL0.
  assert (HL1 : Z.log2 w < 24) by (apply Z.log2_lt_pow2; lia).
  set (L := Z.log2 w) in *.
  replace (Z.succ L) with (L + 1) in HL by lia.
  rewrite Z.log2_pow2 by lia.
  assert (Hreached :
            (if 0 <=? L - k then 2 ^ k * 2 ^ (L - k) <=? w
             else 2 ^ k <=? w * 2 ^ (- (L - k))) = true).
  { destruct (Z.leb_spec 0 (L - k)).
    - rewrite <- Z.pow_add_r by lia.
      replace (k + (L - k)) with L by lia. apply Z.leb_le. lia.
    - apply Z.leb_le. replace k with (L + (- (L - k))) at 1 by lia.
      rewrite Z.pow_add_r by lia.
      apply Z.mul_le_mono_nonneg_r; [apply Z.pow_nonneg|]; lia. }
  rewrite Hreached.
  rewrite Z.max_l by lia.
  destruct (Z.leb_spec 0 (L - k - 23)) as [Hj|Hj].
  - assert (k = 0) by lia. assert (L = 23) by lia. subst k.
    replace (L - 0 - 23) with 0 by lia.
    assert (Hm : round_half_even w (2 ^ 0 * 2 ^ 0) = w).
    { change (2 ^ 0 * 2 ^ 0) with 1. rewrite <- (Z.mul_1_r w) at 1.
      apply round_half_even_exact. lia. }
    rewrite Hm. replace (w * 2 ^ 0) with w by (change (2 ^ 0) with 1; lia).
    rewrite <- (Qred_inject_Z w). apply Qred_complete.
    rewrite Hq. change (2 ^ 0) with 1. unfold Qdiv.
    change (/ inject_Z 1)%Q with 1%Q. ring.
  - replace (- (L - k - 23)) with (23 - L + k) by lia.
    rewrite Z.pow_add_r, Z.mul_assoc by lia.
    rewrite round_half_even_exact
      by (apply Z.pow_pos_nonneg; lia).
    apply Qred_complete. rewrite Hq, !inject_Z_mult.
    field. split; apply inject_Z_pow2_nonzero; lia.
Qed.

(** An integer below 2^24 is a [gfloat]. *)
Lemma gfloat_of_int (w : Z) :
  0 <= w < 2 ^ 24 -> gfloat_of_gdouble (inject_Z w) = inject_Z w.
Proof.
  intros Hw. rewrite (gfloat_exact (inject_Z w) w 0); auto; try lia.
  apply Qred_inject_Z.
Qed.

(** The [gfloat] quotient of an integer below 2^24 by a power of two up to
    2^23 is the exact quotient. *)
Lemma gf_div_exact (w k : Z) :
  0 <= w < 2 ^ 24 -> 0 <= k <= 23 ->
  (gf_div (gfloat_of_gdouble (inject_Z w)) (gfloat_of_gdouble (inject_Z (2 ^ k)))
   == inject_Z w / inject_Z (2 ^ k))%Q.
Proof.
  intros Hw Hk.
  assert (H2 : 0 < 2 ^ k < 2 ^ 24).
  { split; [apply Z.pow_pos_nonneg; lia|].
    apply Z.pow_lt_mono_r; lia. }
  rewrite !gfloat_of_int by lia. unfold gf_div.
  rewrite (gfloat_exact _ w k); try lia.
  - apply Qred_correct.
  - unfold Qdiv, Qinv, inject_Z. cbn [Qnum].
    destruct (2 ^ k) eqn:E; try lia. cbn. lia.
  - unfold Qdiv, Qinv, inject_Z. cbn [Qnum].
    destruct (2 ^ k) eqn:E; try lia. cbn. lia.
Qed.

(** For a viewport of whole pixels, less than 2^24 on each side, and a tile
    size that is a power of two, the end of the range is the first index
    plus the ceiling of the exact quotient of the extent by the tile size
    plus one, clamped to the columns and rows. *)
Lemma visible_range_exact_quotient (v : ChamplainView) (l : ZoomLevel)
    (w h k : Z) :
  champlain_map_source_get_tile_size (map_source v) = 2 ^ k ->
  0 <= k <= 23 ->
  rect_width (viewport_size v) = inject_Z w -> 0 <= w < 2 ^ 24 ->
  rect_height (viewport_size v) = inject_Z h -> 0 <= h < 2 ^ 24 ->
  let r := visible_range v l in
  x_count r
  = Z.min (x_first r + (Qceiling (inject_Z w / inject_Z (2 ^ k)) + 1))
      (column_count l)
  /\ y_count r
     = Z.min (y_first r + (Qceiling (inject_Z h / inject_Z (2 ^ k)) + 1))
         (row_count l).
Proof.
  intros Hsize Hk Hw Hw' Hh Hh' r.
  assert (Hs : 0 < champlain_map_source_get_tile_size (map_source v)).
  { rewrite Hsize. apply Z.pow_pos_nonneg; lia. }
  destruct (visible_range_formula v l Hs) as (_ & _ & Hx & Hy).
  fold r in Hx, Hy. rewrite Hsize, Hw in Hx. rewrite Hsize, Hh in Hy.
  rewrite Hx, Hy.
  rewrite (Qceiling_comp _ _ (gf_div_exact w k Hw' Hk)).
  rewrite (Qceiling_comp _ _ (gf_div_exact h k Hh' Hk)).
  split; reflexivity.
Qed.

(** ** Coverage and idempotence of the reconciliation *)

(** The level one run leaves: the tiles that were in range, then the tiles
    created for the cells that had none. *)
Lemma reconciled_level (v : ChamplainView) (m : Map) :
  map v = Some m ->
  let l := current_level m in
  let r := visible_range v l in
  exists v' new,
    view_load_visible_tiles v = inr v'
    /\ map v' = Some {| current_level :=
                          set_tiles (List.filter (in_range r) (tiles l) ++ new) l |}
    /\ Forall (fun t => tile_state t = CHAMPLAIN_STATE_LOADING
                        /\ In (tile_x t, tile_y t) (cells r)) new
    /\ (forall c, In c (cells r) ->
          existsb (same_cell (fst c) (snd c))
            (List.filter (in_range r) (tiles l) ++ new) = true)
    /\ (forall e, In e (dropped_events r (tiles l) []) -> In e (log v'))
    /\ map_source v' = map_source v
    /\ viewport_size v' = viewport_size v
    /\ anchor v' = anchor v
    /\ view_update_state v' = inr v'.
Proof.
  intros Hm l r. rewrite (view_load_visible_tiles_run v m Hm). fold l r.
  set (st0 := (set_tiles (List.filter (in_range r) (tiles l)) l,
               dropped_events r (tiles l) [])).
  destruct (load_cells_appends (map_source v) (cells r) (fst st0) (snd st0))
    as (new & Hl & Hnew & Hcov).
  assert (Hevs : forall e, In e (snd st0) ->
            In e (snd (load_cells (map_source v) (cells r) st0))).
  { generalize (cells r) st0. clear. intros cs.
    induction cs as [|[i j] cs IH]; intros [l evs] e He; [exact He|].
    unfold load_cells. cbn [fold_left fst snd]. rewrite load_tile_step.
    destruct (existsb (same_cell i j) (tiles l)); apply IH; cbn; auto. }
  replace (fst st0, snd st0) with st0 in Hl by (by destruct st0).
  set (st := load_cells (map_source v) (cells r) st0) in *.
  set (v0 := emit (snd st) (set_map (Some {| current_level := fst st |}) v)).
  destruct (view_update_state_settles v0 {| current_level := fst st |} eq_refl)
    as (v' & Hv' & Hfix & Hmap & Hsrc & Hvs & Han & Hlog).
  exists v', new.
  rewrite Hv', Hmap, Hsrc, Hvs, Han. cbn in Hl, Hcov |- *.
  rewrite Hl. cbn. repeat split; auto.
  intros e He. apply Hlog. cbn. apply in_app_iff. left. apply Hevs. exact He.
Qed.


(** C7.  A second run of the reconciliation, right after a first one,
    returns the very view the first run left: the same tiles, the same log
    (no tile requested, none removed, nothing notified). *)
Theorem reconciliation_idempotent (v : ChamplainView) (m : Map) :
  map v = Some m ->
  exists v1,
    view_load_visible_tiles v = inr v1
    /\ view_load_visible_tiles v1 = inr v1.
Proof.
  intros Hm.
  destruct (reconciled_level v m Hm)
    as (v1 & new & Hrun & Hmap & Hnew & Hcov & _ & Hsrc & Hvs & Han & Hfix).
  exists v1. split; [exact Hrun|].
  set (l := current_level m) in *. set (r := visible_range v l) in *.
  set (ts := List.filter (in_range r) (tiles l) ++ new) in *.
  rewrite (view_load_visible_tiles_run v1 _ Hmap). cbn [current_level].
  assert (Hr : visible_range v1 (set_tiles ts l) = r).
  { subst r. unfold visible_range. rewrite Hsrc, Hvs, Han. reflexivity. }
  rewrite Hr. cbn [tiles set_tiles].
  assert (Hall : forall t, In t ts -> in_range r t = true).
  { intros t Ht. apply in_app_iff in Ht as [Ht|Ht].
    - apply filter_In in Ht. tauto.
    - rewrite Forall_forall in Hnew.
      apply cell_in_range, Hnew. by apply list_elem_of_In. }
  rewrite (filter_all _ _ Hall), (dropped_events_none _ _ _ Hall).
  rewrite load_cells_covered by exact Hcov.
  cbn [fst snd]. rewrite emit_nil.
  replace (set_tiles ts (set_tiles ts l)) with (set_tiles ts l) by reflexivity.
  rewrite <- Hmap, set_map_same. exact Hfix.
Qed.

(** ** The go-to animation *)

Lemma lookup_stopped_timeline (t : nat) (v : ChamplainView) :
  lookup_timeline t (clutter_timeline_stop t v) = None.
Proof.
  unfold lookup_timeline, clutter_timeline_stop. cbn.
  induction (timelines v) as [|[t' c] ts IH]; [reflexivity|].
  cbn. destruct (Nat.eqb t' t) eqn:He; cbn; [exact IH|].
  rewrite He. exact IH.
Qed.

(** C10.  Without a go-to context [champlain_view_stop_go_to] returns the
    view as it is (no state changes, nothing is emitted).  With a context it
    stops the timeline and emits animation-completed, once, clears the
    context, and the timeline delivers nothing any more; a second call then
    changes nothing. *)
Theorem stop_go_to_idle_or_running (v : ChamplainView) :
  (goto_context v = None -> champlain_view_stop_go_to v = v)
  /\ (forall c, goto_context v = Some c ->
        log (champlain_view_stop_go_to v)
        = AnimationCompleted :: TimelineStop (timeline c) :: log v
        /\ goto_context (champlain_view_stop_go_to v) = None
        /\ lookup_timeline (timeline c) (champlain_view_stop_go_to v) = None
        /\ champlain_view_stop_go_to (champlain_view_stop_go_to v)
           = champlain_view_stop_go_to v).
Proof.
  split.
  - intros H. unfold champlain_view_stop_go_to. rewrite H. reflexivity.
  - intros c H.
    assert (Hs : champlain_view_stop_go_to v
                 = set_goto None
                     (timelines (clutter_timeline_stop (timeline c) v))
                     (next_timeline v)
                     (emit [AnimationCompleted]
                        (clutter_timeline_stop (timeline c) v))).
    { unfold champlain_view_stop_go_to. rewrite H. reflexivity. }
    rewrite Hs. repeat split.
    apply (lookup_stopped_timeline (timeline c) v).
Qed.

Lemma stop_go_to_idle_or_running_witness :
  champlain_view_stop_go_to deep_view = deep_view
  /\ log (champlain_view_stop_go_to animated_view)
     = AnimationCompleted :: TimelineStop 0 :: log animated_view.
Proof.
  split.
  - apply (proj1 (stop_go_to_idle_or_running deep_view)). reflexivity.
  - apply (proj2 (stop_go_to_idle_or_running animated_view) example_context).
    reflexivity.
Defined.

(** C5 (as amended).  When the timeline of the running go-to completes, the
    handler only stops the go-to: animation-completed is emitted and the
    context cleared, while the centre, the viewport and the map stay as the
    last delivered frame left them. *)
Theorem go_to_completion_stops_in_place (fuel : nat) (v : ChamplainView)
    (c : GoToContext) :
  goto_context v = Some c ->
  lookup_timeline (timeline c) v = Some c ->
  exists v',
    clock_deliver fuel v (Completed (timeline c)) = inr v'
    /\ log v' = AnimationCompleted :: TimelineStop (timeline c) :: log v
    /\ goto_context v' = None
    /\ latitude v' = latitude v /\ longitude v' = longitude v
    /\ viewport_origin v' = viewport_origin v
    /\ viewport_size v' = viewport_size v
    /\ anchor v' = anchor v
    /\ map v' = map v.
Proof.
  intros Hc Hl. exists (timeline_completed v).
  cbn [clock_deliver]. rewrite Hl.
  unfold timeline_completed, champlain_view_stop_go_to. rewrite Hc.
  cbn. auto 10.
Qed.

Lemma go_to_completion_stops_in_place_witness :
  exists v',
    clock_deliver 4 animated_view (Completed 0) = inr v'
    /\ log v' = AnimationCompleted :: TimelineStop 0 :: log animated_view
    /\ goto_context v' = None
    /\ latitude v' = latitude animated_view
    /\ longitude v' = longitude animated_view
    /\ viewport_origin v' = viewport_origin animated_view
    /\ viewport_size v' = viewport_size animated_view
    /\ anchor v' = anchor animated_view
    /\ map v' = map animated_view.
Proof.
  apply (go_to_completion_stops_in_place 4 animated_view example_context);
    reflexivity.
Defined.

(** C5, the claim as stated fails: a go-to to latitude 45, longitude 90 is
    driven to completion with one frame delivered half way; the completion
    is notified and the context cleared, but the centre is the one of the
    last frame, not the target.  And when the frame at the end of the
    timeline is delivered, the centre is the one the position handler reads
    back from the pixel grid, here (10.546875, 9.84375) for the target
    (10, 10). *)
Lemma go_to_completion_misses_target :
  (fun v => (latitude v, longitude v, goto_context v, hd_error (log v)))
    <$> go_to_driven_to_completion
  = inr ((45 # 2)%Q, 45%Q, None, Some AnimationCompleted)
  /\ (fun v => (latitude v, longitude v, goto_context v, hd_error (log v)))
       <$> go_to_with_last_frame
     = inr ((675 # 64)%Q, (315 # 32)%Q, None, Some AnimationCompleted).
Proof. split; vm_compute; reflexivity. Qed.

(** At most one animation, from the start and across a stop. *)
Lemma one_animation_blank (src : ChamplainMapSource) :
  one_animation (blank_view src).
Proof. reflexivity. Qed.

Lemma one_animation_stop_go_to (v : ChamplainView) :
  one_animation v -> one_animation (champlain_view_stop_go_to v).
Proof.
  unfold one_animation, champlain_view_stop_go_to.
  destruct (goto_context v) as [c|] eqn:Hc.
  - intros [Hts _]. cbn. rewrite Hts. cbn. rewrite Nat.eqb_refl. reflexivity.
  - rewrite Hc. auto.
Qed.





(** ** Zoom changes and the view without a map *)

(** C4 (as amended).  A zoom level equal to the current one or outside
    [min_zoom_level, max_zoom_level] is rejected before anything is touched:
    both calls return the view as it was; [view_set_zoom_level_at] returns
    FALSE with it, [champlain_view_set_zoom_level] returns nothing. *)
Theorem rejected_zoom_change_is_noop (fuel : nat) (v : ChamplainView)
    (z x y : Z) :
  z = zoom_level v \/ z < min_zoom_level v \/ max_zoom_level v < z ->
  champlain_view_set_zoom_level fuel v z = inr v
  /\ view_set_zoom_level_at fuel v z x y = inr (v, false).
Proof.
  intros H.
  assert (Hrej : (z =? zoom_level v) || ZOOM_LEVEL_OUT_OF_RANGE v z = true).
  { unfold ZOOM_LEVEL_OUT_OF_RANGE. rewrite !orb_true_iff.
    rewrite Z.eqb_eq, Z.ltb_lt, Z.gtb_lt. tauto. }
  unfold champlain_view_set_zoom_level, view_set_zoom_level_at.
  rewrite Hrej. split; [|reflexivity].
  destruct (map v); reflexivity.
Qed.

Lemma rejected_zoom_change_is_noop_witness :
  champlain_view_set_zoom_level 4 deep_view 19 = inr deep_view
  /\ view_set_zoom_level_at 4 deep_view 19 400 300 = inr (deep_view, false).
Proof.
  apply (rejected_zoom_change_is_noop 4 deep_view 19 400 300).
  right. right. reflexivity.
Defined.

(** C4, the claim as stated fails: for the rejected level 19 (the maximum
    is 18) [champlain_view_set_zoom_level] hands back nothing, and so no
    indication of failure: it hands back the same for the accepted level 9,
    which becomes the zoom level.  Only [view_set_zoom_level_at] tells its
    caller. *)
Lemma set_zoom_level_returns_no_indication :
  indicates_failure
    <$> returned_by_set_zoom_level (champlain_view_set_zoom_level 4 deep_view 19)
  = inr false
  /\ returned_by_set_zoom_level (champlain_view_set_zoom_level 4 deep_view 19)
     = returned_by_set_zoom_level (champlain_view_set_zoom_level 4 deep_view 9)
  /\ zoom_level <$> champlain_view_set_zoom_level 4 deep_view 9 = inr 9
  /\ indicates_failure
       <$> returned_by_set_zoom_level_at
             (view_set_zoom_level_at 4 deep_view 19 400 300)
     = inr true
  /\ indicates_failure
       <$> returned_by_set_zoom_level_at
             (view_set_zoom_level_at 4 deep_view 9 400 300)
     = inr false.
Proof. repeat split; vm_compute; reflexivity. Qed.

Lemma view_update_anchor_below_threshold (v : ChamplainView) (x y : Z) :
  zoom_level v < 8 ->
  view_update_anchor v x y
  = inr (set_anchor {| pt_x := 0%Q; pt_y := 0%Q |} (zoom_level v) v).
Proof.
  intros H. unfold view_update_anchor.
  replace (8 <=? zoom_level v) with false by (symmetry; apply Z.leb_gt; lia).
  reflexivity.
Qed.

Lemma view_load_visible_tiles_returns (v : ChamplainView) (m : Map) :
  map v = Some m ->
  exists v',
    view_load_visible_tiles v = inr v'
    /\ zoom_level v' = zoom_level v /\ is_Some (map v').
Proof.
  intros Hm. rewrite (view_load_visible_tiles_run v m Hm).
  unfold view_update_state. cbn [map emit set_map].
  match goal with |- context [ChamplainState_eqb ?a ?b] =>
    destruct (ChamplainState_eqb a b) end;
    eexists; (split; [reflexivity|]); cbn; eauto.
Qed.

Lemma view_tiles_reposition_returns (v : ChamplainView) :
  is_Some (map v) ->
  exists v',
    view_tiles_reposition v = inr v'
    /\ zoom_level v' = zoom_level v /\ is_Some (map v').
Proof.
  intros [m Hm]. unfold view_tiles_reposition. rewrite Hm.
  eexists. split; [reflexivity|]. cbn. eauto.
Qed.

(** Below zoom level 8 the anchor stays (0, 0) and the position handler
    returns without nesting. *)
Lemma viewport_pos_changed_cb_low_zoom (fuel : nat) (v : ChamplainView) :
  zoom_level v < 8 -> is_Some (map v) ->
  anchor v = {| pt_x := 0%Q; pt_y := 0%Q |} ->
  exists v',
    viewport_pos_changed_cb (S fuel) v = inr v'
    /\ zoom_level v' = zoom_level v /\ is_Some (map v').
Proof.
  intros Hz [m Hm] Ha. cbn [viewport_pos_changed_cb].
  destruct (gd_eqb _ _ && gd_eqb _ _); [exists v; eauto|].
  rewrite view_update_anchor_below_threshold by exact Hz.
  cbn [mbind M_bind anchor set_anchor]. rewrite Ha.
  cbn [pt_x pt_y]. change (gd_eqb (gd_sub 0 0) 0) with true. cbn [negb].
  match goal with |- context [view_load_visible_tiles ?w] =>
    destruct (view_load_visible_tiles_returns w m) as (v3 & -> & Hz3 & Hm3);
      [cbn; exact Hm|] end.
  cbn [mbind M_bind].
  destruct (view_tiles_reposition_returns v3 Hm3) as (v4 & -> & Hz4 & Hm4).
  cbn [mbind M_bind]. eexists. split; [reflexivity|].
  cbn. rewrite Hz4, Hz3. cbn. auto.
Qed.

Lemma champlain_view_center_on_low_zoom (fuel : nat) (v : ChamplainView)
    (lat lon : gdouble) :
  zoom_level v < 8 ->
  exists v',
    champlain_view_center_on (S fuel) v lat lon = inr v'
    /\ zoom_level v' = zoom_level v /\ is_Some (map v').
Proof.
  intros Hz. unfold champlain_view_center_on.
  assert (H1 : exists v1,
             match map (set_center lat lon v) with
             | Some _ => mret (set_center lat lon v)
             | None => create_initial_map (set_center lat lon v)
             end = inr v1
             /\ zoom_level v1 = zoom_level v /\ is_Some (map v1)).
  { cbn [map set_center]. destruct (map v) as [m|] eqn:Hm.
    - eexists. split; [reflexivity|]. cbn. rewrite Hm. eauto.
    - unfold create_initial_map, view_tiles_reposition. cbn.
      eexists. split; [reflexivity|]. cbn. eauto. }
  destruct H1 as (v1 & -> & Hz1 & Hm1). cbn [mbind M_bind].
  rewrite view_update_anchor_below_threshold by lia. cbn [mbind M_bind].
  set (v2 := set_anchor _ _ v1).
  assert (H3 : forall x y, exists v3,
             tidy_viewport_set_origin (viewport_pos_changed_cb (S fuel)) v2 x y
             = inr v3
             /\ zoom_level v3 = zoom_level v /\ is_Some (map v3)).
  { intros x y. unfold tidy_viewport_set_origin.
    destruct (gd_eqb _ _ && gd_eqb _ _).
    - exists v2. split; [reflexivity|]. subst v2. cbn. auto.
    - destruct (viewport_pos_changed_cb_low_zoom fuel
                  (set_viewport_origin {| pt_x := x; pt_y := y |} v2))
        as (v3 & Hv3 & Hz3 & Hm3).
      + subst v2. cbn. lia.
      + subst v2. cbn. exact Hm1.
      + reflexivity.
      + exists v3. split; [exact Hv3|]. split; [|exact Hm3].
        rewrite Hz3. subst v2. cbn. exact Hz1. }
  match goal with |- context [tidy_viewport_set_origin _ v2 ?x ?y] =>
    destruct (H3 x y) as (v3 & -> & Hz3 & [m3 Hm3]) end.
  cbn [mbind M_bind].
  match goal with |- context [view_load_visible_tiles ?w] =>
    destruct (view_load_visible_tiles_returns w m3) as (v5 & -> & Hz5 & Hm5);
      [cbn; exact Hm3|] end.
  cbn [mbind M_bind].
  destruct (view_tiles_reposition_returns v5 Hm5) as (v6 & -> & Hz6 & Hm6).
  exists v6. split; [reflexivity|]. cbn in Hz5. rewrite Hz6, Hz5, Hz3. auto.
Qed.

(** C9 (as amended).  On a view without a map (zoom level below 8, as
    [champlain_view_init] leaves it), [champlain_view_set_zoom_level] and
    [resize_viewport] return the view as it is; [champlain_view_set_size],
    with keep-center-on-resize set, stores the size and centres the view,
    which creates the map: it returns a view that has one. *)
Theorem operations_before_first_centering (fuel : nat) (v : ChamplainView)
    (z width height : Z) :
  map v = None ->
  zoom_level v < 8 ->
  champlain_view_set_zoom_level fuel v z = inr v
  /\ resize_viewport v = v
  /\ (keep_center_on_resize v = true ->
        exists v',
          champlain_view_set_size (S fuel) v width height = inr v'
          /\ is_Some (map v')).
Proof.
  intros Hm Hz. split; [|split].
  - unfold champlain_view_set_zoom_level. rewrite Hm. reflexivity.
  - unfold resize_viewport. rewrite Hm. reflexivity.
  - intros Hk. unfold champlain_view_set_size, resize_viewport.
    cbn [map set_viewport_size]. rewrite Hm.
    cbn [keep_center_on_resize set_viewport_size]. rewrite Hk.
    match goal with |- context [champlain_view_center_on _ ?w ?a ?b] =>
      destruct (champlain_view_center_on_low_zoom fuel w a b)
        as (v' & Hv' & _ & Hm'); [cbn; exact Hz|] end.
    exists v'. auto.
Qed.

Lemma operations_before_first_centering_witness :
  champlain_view_set_zoom_level 3 (blank_view square_source) 5
  = inr (blank_view square_source)
  /\ resize_viewport (blank_view square_source) = blank_view square_source
  /\ exists v',
       champlain_view_set_size 4 (blank_view square_source) 800 600 = inr v'
       /\ is_Some (map v').
Proof.
  destruct (operations_before_first_centering 3 (blank_view square_source)
              5 800 600) as (H1 & H2 & H3).
  - reflexivity.
  - reflexivity.
  - split; [exact H1|]. split; [exact H2|]. apply H3. reflexivity.
Defined.

(** C9, the claim as stated fails: on the view without a map that
    [champlain_view_init] starts from, [champlain_view_set_size] creates the
    map and requests the tile of zoom level 0. *)
Lemma set_size_creates_the_map :
  map (blank_view square_source) = None
  /\ (fun v => (match map v with
                | Some m => Some (List.map (fun t => (tile_x t, tile_y t))
                                    (tiles (current_level m)))
                | None => None
                end,
                existsb
                  (fun e => match e with FillTile 0 0 0 => true | _ => false end)
                  (log v)))
       <$> champlain_view_set_size 4 (blank_view square_source) 800 600
     = inr (Some [(0, 0)], true).
Proof. split; [reflexivity | vm_compute; reflexivity]. Qed.

(** The same call with keep-center-on-resize unset runs the reconciliation,
    which reads the current level of a map that is not there. *)
Lemma set_size_without_map_dereferences_null (fuel : nat) (v : ChamplainView)
    (width height : Z) :
  map v = None ->
  keep_center_on_resize v = false ->
  champlain_view_set_size fuel v width height = inl NullDereference.
Proof.
  intros Hm Hk. unfold champlain_view_set_size, resize_viewport.
  cbn [map set_viewport_size]. rewrite Hm.
  cbn [keep_center_on_resize set_viewport_size]. rewrite Hk.
  unfold view_load_visible_tiles. cbn [map set_viewport_size]. rewrite Hm.
  reflexivity.
Qed.

(** ** The anchor *)

Lemma gd_ltb_of_int (a b : Z) :
  gd_ltb (gd_of_int a) (gd_of_int b) = (a <? b).
Proof.
  unfold gd_ltb, gd_of_int, Qle_bool, inject_Z. cbn.
  rewrite !Z.mul_1_r. rewrite Z.ltb_antisym. reflexivity.
Qed.

Lemma clamp_in_code (a hi : Z) :
  (if gd_ltb (gd_of_int hi)
        (if gd_ltb (gd_of_int a) 0 then 0%Q else gd_of_int a)
   then gd_of_int hi
   else if gd_ltb (gd_of_int a) 0 then 0%Q else gd_of_int a)
  = gd_of_int (clamp a 0 hi).
Proof.
  change 0%Q with (gd_of_int 0). rewrite (gd_ltb_of_int a 0).
  unfold clamp.
  destruct (Z.ltb_spec a 0); rewrite gd_ltb_of_int;
    match goal with |- context [?p <? ?q] => destruct (Z.ltb_spec p q) end;
    f_equal; lia.
Qed.

(** What [view_update_anchor] computes when it recomputes the anchor (zoom
    level 8 or more, [need_update] set): both axes are clamped against the
    horizontal extent of the grid. *)
Lemma view_update_anchor_uses_width (v : ChamplainView) (m : Map) (x y : Z) :
  map v = Some m ->
  8 <= zoom_level v ->
  need_update v x y = true ->
  let extent :=
    champlain_zoom_level_get_width (current_level m)
    * champlain_map_source_get_tile_size (map_source v) in
  Z.quot G_MAXINT16 2 <= extent < 2 ^ 32 ->
  view_update_anchor v x y
  = inr (set_anchor
           {| pt_x := gd_of_int
                        (clamp (x - Z.quot G_MAXINT16 2) 0
                           (extent - Z.quot G_MAXINT16 2));
              pt_y := gd_of_int
                        (clamp (y - Z.quot G_MAXINT16 2) 0
                           (extent - Z.quot G_MAXINT16 2)) |}
           (zoom_level v) v).
Proof.
  intros Hm Hz Hupd extent Hext. unfold view_update_anchor.
  replace (8 <=? zoom_level v) with true by (symmetry; apply Z.leb_le; lia).
  rewrite Hupd. cbn [andb]. rewrite Hm. fold extent.
  assert (Hw : guint (extent - Z.quot G_MAXINT16 2)
               = extent - Z.quot G_MAXINT16 2).
  { clearbody extent. unfold guint. apply Z.mod_small.
    change (Z.quot G_MAXINT16 2) with 16383 in *.
    change (2 ^ 32) with 4294967296 in *. lia. }
  rewrite Hw, !clamp_in_code. reflexivity.
Qed.

(** At zoom level 8 or more the anchor is left alone until [need_update] is
    set. *)
Lemma view_update_anchor_kept (v : ChamplainView) (x y : Z) :
  8 <= zoom_level v ->
  need_update v x y = false ->
  view_update_anchor v x y = inr v.
Proof.
  intros Hz Hupd. unfold view_update_anchor.
  replace (8 <=? zoom_level v) with true by (symmetry; apply Z.leb_le; lia).
  rewrite Hupd. reflexivity.
Qed.

(** C3, evaluated where the code and the claim part: on a grid of 256
    columns and 512 rows of 256-pixel tiles, for the centre (30000, 100000),
    the anchor the specification words is (13617, 83617); the code clamps
    the y axis against the horizontal extent 65536 and sets (13617, 49153). *)
Theorem anchor_y_clamped_against_width :
  anchor <$> view_update_anchor tall_view 30000 100000
  = inr {| pt_x := 13617; pt_y := 49153 |}
  /\ anchor_as_specified (zoom_level_new 8 512 256 256) 30000 100000
     = {| pt_x := 13617; pt_y := 83617 |}.
Proof. split; vm_compute; reflexivity. Qed.

(** C1, evaluated where the code and the claim part: the viewport of
    [deep_view] reports the next pixel of a scroll straight down.  The
    handler moves the anchor from (3617, 3617) to (3617, 19401); as the x
    component did not move the origin is not compensated, and the tile
    (78, 140), drawn at (368, 356) before the update, is at (368, -15428)
    after it. *)
Theorem vertical_scroll_moves_the_map :
  anchor deep_view_scrolled_down = {| pt_x := 3617; pt_y := 3617 |}
  /\ rendered_position deep_view_scrolled_down deep_tile
     = Some (368%Q, 356%Q)
  /\ (fun v => (anchor v, viewport_origin v, rendered_position v deep_tile))
       <$> viewport_pos_changed_cb 4 deep_view_scrolled_down
     = inr ({| pt_x := 3617; pt_y := 19401 |},
            {| pt_x := 15983; pt_y := 31867 |},
            Some (368%Q, (-15428)%Q)).
Proof. repeat split; vm_compute; reflexivity. Qed.

(** The sibling case: after a scroll to the right the x component of the
    anchor moves, the origin is compensated on both axes, and the tile
    (140, 140) stays where it was drawn. *)
Lemma horizontal_scroll_is_compensated :
  rendered_position deep_view_scrolled_right east_tile
  = Some (256%Q, 357%Q)
  /\ (fun v => (anchor v, viewport_origin v, rendered_position v east_tile))
       <$> viewport_pos_changed_cb 4 deep_view_scrolled_right
     = inr ({| pt_x := 19601; pt_y := 19400 |},
            {| pt_x := 15983; pt_y := 16083 |},
            Some (256%Q, 357%Q)).
Proof. split; vm_compute; reflexivity. Qed.

(** The compensation itself is exact: once the handler has moved the origin
    by the move of the anchor, every tile is drawn where it was drawn with
    the old anchor and the origin the viewport reported. *)
Lemma relocated_origin_keeps_rendered_position (v : ChamplainView)
    (old : ChamplainFloatPoint) (t : ChamplainTile) :
  rendered_position
    (set_viewport_origin
       {| pt_x := gd_sub (pt_x (viewport_origin v))
                    (gd_sub (pt_x (anchor v)) (pt_x old));
          pt_y := gd_sub (pt_y (viewport_origin v))
                    (gd_sub (pt_y (anchor v)) (pt_y old)) |} v) t
  = rendered_position (set_anchor old (anchor_zoom_level v) v) t.
Proof.
  unfold rendered_position, view_position_tile.
  destruct (tile_actor t) eqn:Ha; cbn; [|rewrite Ha; reflexivity].
  unfold gd_sub. do 2 f_equal; apply Qred_complete;
    rewrite !Qred_correct; ring.
Qed.

(** ** Making two positions visible *)

(** C8, evaluated where the code and the claim part: in a view of 300 by
    300 pixels at zoom level 3, with minimum zoom level 2, the box of the
    positions (50, 100) and (80, 170) does not fit at zoom level 3 and fits
    at zoom level 2.  The loop leaves at zoom level 2 without testing it,
    and the view ends at zoom level 2 centred on (0, 0): it shows the pixels
    362 to 662 on both axes, while the two positions are at the pixels
    (796, 227) and (995, 56). *)
Theorem ensure_visible_skips_min_zoom :
  (v ← small_view_at_zoom_3;
   mret (zoom_level v, min_zoom_level v,
         box_fits v 3 50 100 80 170, box_fits v 2 50 100 80 170))
  = inr (3, 2, false, true)
  /\ (fun v =>
        (zoom_level v, latitude v, longitude v, viewport_size v,
         (champlain_map_source_get_x (map_source v) 2 100,
          champlain_map_source_get_y (map_source v) 2 50),
         (champlain_map_source_get_x (map_source v) 2 170,
          champlain_map_source_get_y (map_source v) 2 80)))
       <$> (v ← small_view_at_zoom_3;
            champlain_view_ensure_visible 4 v 50 100 80 170 false)
     = inr (2, 0%Q, 0%Q,
            {| rect_x := 362; rect_y := 362;
               rect_width := 300; rect_height := 300 |},
            (796, 227), (995, 56)).
Proof. split; vm_compute; reflexivity. Qed.

(** ** Examples of the reconciliation *)


Lemma reconciliation_idempotent_witness :
  exists v1,
    view_load_visible_tiles deep_view = inr v1
    /\ view_load_visible_tiles v1 = inr v1.
Proof.
  apply (reconciliation_idempotent deep_view
           {| current_level :=
                set_tiles [deep_tile] (zoom_level_new 8 256 256 256) |}).
  reflexivity.
Defined.

(** From 2^24 pixels on, the cast to [gfloat] rounds the extent: the view
    16777217 pixels wide gets the range of a view 16777216 pixels wide, one
    column less than the exact quotient gives. *)
Lemma float_cast_drops_a_column :
  x_count (visible_range wide_view (zoom_level_new 18 262144 262144 256))
  = 65537
  /\ Z.min (0 + (Qceiling (16777217 / 256) + 1)) 262144 = 65538.
Proof. split; vm_compute; reflexivity. Qed.

